(** * rqalpha: the bar retrieval engine of [BaseDataSource]

    A shallow embedding of [rqalpha/data/base_data_source.py]: the
    per-instrument day-bar series, the exact-date lookup [get_bar], the
    bounded window [history_bars] and the weekly / monthly resampling
    [_resample_k_bars], with the properties the specification states about
    them.

    Conventions of the embedding.
    - A numpy structured array is a [recarray]: the tuple [dtype.names] and
      the records, each a list of cells aligned with the names.  Cells are
      exact integers ([Z]): the date key is an unsigned integer in the
      source, and the price and quantity columns are read as exact numbers
      in fixed-point units, so no rounding and no NaN occur in stored bars.
      NaN only appears in aggregated frames, as [None].
    - Python [None] is [None]; a raised exception is [Raise e].
    - Python list objects live in a [heap] and are passed by reference, so
      that the aliasing [fds = fields] of [_resample_k_bars] is visible.
    - [@lru_cache] memoises a pure read of an immutable store; it does not
      change any returned value and is not modelled. *)

From Stdlib Require Import ZArith Lia List Bool Sorted.
From stdpp Require Import base option list gmap strings numbers.

Open Scope Z_scope.

(** ** Python values and effects *)

Inductive exn : Set :=
  | NotImplementedError
  | KeyError
  | TypeError
  | ValueError.

Inductive outcome (A : Type) : Type :=
  | Ok (a : A)
  | Raise (e : exn).
Arguments Ok {A} a.
Arguments Raise {A} e.

(** The identity of a Python list object. *)
Definition loc := nat.

(** The list objects alive, each with its current content. *)
Abbreviation heap := (gmap loc (list string)).

(** A computation reads and writes list objects and returns or raises; the
    writes made before an exception stay. *)
Definition M (A : Type) : Type := heap -> outcome A * heap.

Definition ret {A} (a : A) : M A := fun h => (Ok a, h).
Definition raise {A} (e : exn) : M A := fun h => (Raise e, h).
Definition bind {A B} (m : M A) (k : A -> M B) : M B :=
  fun h => match m h with
           | (Ok a, h') => k a h'
           | (Raise e, h') => (Raise e, h')
           end.
Definition lift {A} (o : outcome A) : M A := fun h => (o, h).

Notation "'let*' x := m 'in' k" := (bind m (fun x => k))
  (at level 10, x name, m at level 100, k at level 200).

(** Reading a list object; a reference always denotes a live list, a
    dangling one reads as the empty list. *)
Definition deref (h : heap) (l : loc) : list string := default [] (h !! l).

Definition read (l : loc) : M (list string) := fun h => (Ok (deref h l), h).

(** [l.append(x)] *)
Definition append (l : loc) (x : string) : M unit :=
  fun h => (Ok tt, <[l := deref h l ++ [x]]> h).

(** A list display [[x]] creates a new object. *)
Definition fresh_loc (h : heap) : loc := fresh (dom h).

Definition alloc (v : list string) : M loc :=
  fun h => (Ok (fresh_loc h), <[fresh_loc h := v]> h).

(** The [fields] argument: [None], one field name, or a list object. *)
Inductive pyfields : Type :=
  | FNone
  | FStr (s : string)
  | FList (l : loc).

(** ** Record arrays *)

Record recarray : Type := mk_recarray {
  dtype_names : list string;
  rows : list (list Z)
}.

(** Position of a field in the dtype. *)
Fixpoint field_index (f : string) (names : list string) : option nat :=
  match names with
  | [] => None
  | n :: names' =>
      if String.eqb f n then Some 0%nat
      else option_map S (field_index f names')
  end.

Definition cell (i : nat) (r : list Z) : Z := nth i r 0.

(** [a[f]] for one field name: the column, or an error when the dtype has
    no such field. *)
Definition column (f : string) (a : recarray) : outcome (list Z) :=
  match field_index f (dtype_names a) with
  | Some i => Ok (map (cell i) (rows a))
  | None => Raise ValueError
  end.

(** [name in names] *)
Definition mem (f : string) (names : list string) : bool :=
  existsb (String.eqb f) names.

(** ** Dates *)

(** A calendar date, the part of a Python [datetime] the engine uses. *)
Record date : Type := mk_date { year : Z; month : Z; day : Z }.

(** Modelled from the spec: [convert_date_to_int] of
    [rqalpha/utils/datetime_func.py], which is not under src/.  The spec
    describes the date key as an integer in "YYYYMMDD-style encoding". *)
Definition convert_date_to_int (d : date) : Z :=
  year d * 10000 + month d * 100 + day d.

(** ** numpy.searchsorted

    The bisection of numpy: the interval [lo, hi) halves until it is
    empty.  [side='left'] moves right past values below the key,
    [side='right'] past values not above it. *)

Inductive side : Set := SLeft | SRight.

Definition goes_right (s : side) (mid_val key : Z) : bool :=
  match s with
  | SLeft => mid_val <? key
  | SRight => mid_val <=? key
  end.

Fixpoint bisect (s : side) (a : list Z) (key : Z)
    (fuel : nat) (lo hi : nat) : nat :=
  match fuel with
  | O => lo
  | S fuel' =>
      if (lo <? hi)%nat then
        let mid := (lo + (hi - lo) / 2)%nat in
        if goes_right s (nth mid a 0) key
        then bisect s a key fuel' (S mid) hi
        else bisect s a key fuel' lo mid
      else lo
  end.

(** The interval shrinks at every step, so [length a] steps are enough. *)
Definition searchsorted (a : list Z) (key : Z) (s : side) : nat :=
  bisect s a key (length a) 0%nat (length a).

(** ** The engine *)

Record instrument : Type := mk_instrument {
  type : string;
  order_book_id : string
}.

(** [DayBarStore.get_bars(order_book_id, fields=None)]: the full series of
    an instrument, or [None] when the table does not know it. *)
Definition DayBarStore := string -> option recarray.

(** The four tables built by [__init__], in the order of [_day_bars]. *)
Record BaseDataSource : Type := mk_source {
  stocks : DayBarStore;
  indexes : DayBarStore;
  futures : DayBarStore;
  funds : DayBarStore
}.

Definition _day_bars (self : BaseDataSource) (i : nat) : DayBarStore :=
  match i with
  | 0%nat => stocks self
  | 1%nat => indexes self
  | 2%nat => futures self
  | _ => funds self
  end.

Definition INSTRUMENT_TYPE_MAP (t : string) : option nat :=
  if String.eqb t "CS" then Some 0%nat
  else if String.eqb t "INDX" then Some 1%nat
  else if String.eqb t "Future" then Some 2%nat
  else if String.eqb t "ETF" then Some 3%nat
  else if String.eqb t "LOF" then Some 3%nat
  else if String.eqb t "FenjiA" then Some 3%nat
  else if String.eqb t "FenjiB" then Some 3%nat
  else if String.eqb t "FenjiMu" then Some 3%nat
  else None.

(** A missing key of the dict raises [KeyError]. *)
Definition _index_of (ins : instrument) : outcome nat :=
  match INSTRUMENT_TYPE_MAP (type ins) with
  | Some i => Ok i
  | None => Raise KeyError
  end.

Definition _all_day_bars_of (self : BaseDataSource) (ins : instrument)
    : outcome (option recarray) :=
  match _index_of ins with
  | Ok i => Ok (_day_bars self i (order_book_id ins))
  | Raise e => Raise e
  end.

(** [a[mask]] with a boolean array: the records at the true positions. *)
Fixpoint mask_select {A} (mask : list bool) (l : list A) : list A :=
  match mask, l with
  | b :: mask', x :: l' =>
      if b then x :: mask_select mask' l' else mask_select mask' l'
  | _, _ => []
  end.

Definition _filtered_day_bars (self : BaseDataSource) (ins : instrument)
    : outcome (option recarray) :=
  match _all_day_bars_of self ins with
  | Raise e => Raise e
  | Ok None => Ok None
  | Ok (Some bars) =>
      match column "volume" bars with
      | Raise e => Raise e
      | Ok vol =>
          Ok (Some (mk_recarray (dtype_names bars)
                      (mask_select (map (fun v => 0 <? v) vol) (rows bars))))
      end
  end.

(** One record of an array, with the names of its cells. *)
Record record : Type := mk_record {
  record_names : list string;
  cells : list Z
}.

Definition get_bar (self : BaseDataSource) (ins : instrument) (dt : date)
    (frequency : string) : outcome (option record) :=
  if negb (String.eqb frequency "1d") then Raise NotImplementedError
  else
    match _all_day_bars_of self ins with
    | Raise e => Raise e
    | Ok None => Ok None
    | Ok (Some bars) =>
        let dt := convert_date_to_int dt in
        match column "datetime" bars with
        | Raise e => Raise e
        | Ok dts =>
            let pos := searchsorted dts dt SLeft in
            if ((length (rows bars) <=? pos)%nat
                || negb (nth pos dts 0 =? dt))%bool
            then Ok None
            else Ok (Some (mk_record (dtype_names bars)
                             (nth pos (rows bars) [])))
        end
    end.

(** [_are_fields_valid(fields, valid_fields)] *)
Definition _are_fields_valid (fields : pyfields) (valid_fields : list string)
    : M bool :=
  match fields with
  | FNone => ret true
  | FStr s => ret (mem s valid_fields)
  | FList l =>
      let* fs := read l in
      ret (forallb (fun field => mem field valid_fields) fs)
  end.

(** ** The calendar

    The dates of Python's [datetime]: the proleptic Gregorian calendar,
    day 1 being Monday 0001-01-01. *)

Definition is_leap (y : Z) : bool :=
  (y mod 4 =? 0) && (negb (y mod 100 =? 0) || (y mod 400 =? 0)).

Definition days_in_month (y m : Z) : Z :=
  if m =? 2 then (if is_leap y then 29 else 28)
  else if (m =? 4) || (m =? 6) || (m =? 9) || (m =? 11) then 30
  else 31.

Definition days_before_month (y m : Z) : Z :=
  let feb := if is_leap y then 29 else 28 in
  if m <=? 1 then 0
  else if m =? 2 then 31
  else if m =? 3 then 31 + feb
  else if m =? 4 then 62 + feb
  else if m =? 5 then 92 + feb
  else if m =? 6 then 123 + feb
  else if m =? 7 then 153 + feb
  else if m =? 8 then 184 + feb
  else if m =? 9 then 215 + feb
  else if m =? 10 then 245 + feb
  else if m =? 11 then 276 + feb
  else 306 + feb.

Definition days_before_year (y : Z) : Z :=
  let p := y - 1 in p * 365 + p / 4 - p / 100 + p / 400.

Definition toordinal (d : date) : Z :=
  days_before_year (year d) + days_before_month (year d) (month d) + day d.

(** Monday is 0 and Sunday is 6. *)
Definition weekday (d : date) : Z := (toordinal d + 6) mod 7.

Definition valid_date (d : date) : bool :=
  (1 <=? year d) && (year d <=? 9999) &&
  (1 <=? month d) && (month d <=? 12) &&
  (1 <=? day d) && (day d <=? days_in_month (year d) (month d)).

(** Modelled from the spec: the digits of a date key, "YYYYMMDD-style",
    as [convert_int_to_datetime] (below) reads them. *)
Definition date_of_int (dt_int : Z) : date :=
  mk_date (dt_int / 10000) (dt_int / 100 mod 100) (dt_int mod 100).

(** Modelled from the spec: [convert_int_to_datetime] of
    [rqalpha/utils/datetime_func.py], which is not under src/.  It decodes
    the date key and builds the [datetime], which raises [ValueError] for a
    date that does not exist. *)
Definition convert_int_to_datetime (dt_int : Z) : outcome date :=
  let d := date_of_int dt_int in
  if valid_date d then Ok d else Raise ValueError.

(** ** pandas: resampling a frame indexed by dates *)

(** The offsets [history_bars] asks for: weeks that end on Friday and
    calendar months. *)
Inductive offset : Set := W_FRI | MonthEnd.

Definition to_offset (frequency : string) : outcome offset :=
  if String.eqb frequency "W-Fri" then Ok W_FRI
  else if String.eqb frequency "M" then Ok MonthEnd
  else Raise ValueError.

(** The bin of a date.  Fridays are the days 5, 12, 19, ...: the week
    labelled by Friday [7 * j + 5] holds the days [7 * j - 1 .. 7 * j + 5]
    (Saturday to Friday) and is bin [j]; the month [m] of year [y] is bin
    [12 * y + (m - 1)]. *)
Definition bucket (o : offset) (d : date) : Z :=
  match o with
  | W_FRI => (toordinal d + 1) / 7
  | MonthEnd => year d * 12 + (month d - 1)
  end.

(** The label of the weekly bin of a date: the Friday on or after it. *)
Definition week_label (d : date) : Z :=
  toordinal d + (4 - weekday d) mod 7.

(** A time grouper always sorts its axis, with a stable sort. *)
Fixpoint insert_stamped (x : date * list Z) (l : list (date * list Z))
    : list (date * list Z) :=
  match l with
  | [] => [x]
  | y :: l' =>
      if toordinal (fst x) <=? toordinal (fst y) then x :: y :: l'
      else y :: insert_stamped x l'
  end.

Definition sort_stamped (l : list (date * list Z)) : list (date * list Z) :=
  foldr insert_stamped [] l.

(** The aggregations named by the handler table. *)
Inductive agg_method : Set := first | last_ | max | min | sum.

(** NaN is [None]: an empty bin has no first, last, largest or smallest
    value; its sum is 0. *)
Definition aggregate (m : agg_method) (vals : list Z) : option Z :=
  match m with
  | first => head vals
  | last_ => list.last vals
  | max => match vals with [] => None | v :: vs => Some (foldl Z.max v vs) end
  | min => match vals with [] => None | v :: vs => Some (foldl Z.min v vs) end
  | sum => Some (foldl Z.add 0 vals)
  end.

(** A frame under construction: column names and, per bin, the cells. *)
Record frame : Type := mk_frame {
  columns : list string;
  cells_of : list (list (option Z))
}.

(** [df[field] = col]: a new column goes last, an existing one is
    replaced. *)
Definition set_column (df : frame) (field : string) (col : list (option Z))
    : frame :=
  match field_index field (columns df) with
  | Some i =>
      mk_frame (columns df) (zip_with (fun r c => <[i := c]> r) (cells_of df) col)
  | None =>
      mk_frame (columns df ++ [field])
        (zip_with (fun r c => r ++ [c]) (cells_of df) col)
  end.

(** [df.dropna()] keeps the rows without NaN. *)
Definition dropna (rs : list (list (option Z))) : list (list Z) :=
  omap (fun r => mapM id r) rs.

(** The handler table of [_resample_k_bars]. *)
Definition handler (field : string) : option agg_method :=
  if String.eqb field "datetime" then Some last_
  else if String.eqb field "open" then Some first
  else if String.eqb field "high" then Some max
  else if String.eqb field "low" then Some min
  else if String.eqb field "close" then Some last_
  else if String.eqb field "volume" then Some sum
  else if String.eqb field "total_turnover" then Some sum
  else None.

(** The records of one bin, in index order. *)
Definition bin_rows (o : offset) (stamped : list (date * list Z)) (k : Z)
    : list (list Z) :=
  map snd (List.filter (fun x => bucket o (fst x) =? k) stamped).

(** The bins from the one of the first date to the one of the last. *)
Definition bins (o : offset) (stamped : list (date * list Z)) : list Z :=
  match stamped, list.last stamped with
  | x :: _, Some y =>
      seqZ (bucket o (fst x)) (bucket o (fst y) - bucket o (fst x) + 1)
  | _, _ => []
  end.

(** [getattr(agg[field], handler[field])()] for one field: the column
    must exist and the field must have a rule. *)
Definition aggregate_field (bars : recarray) (groups : list (list (list Z)))
    (field : string) : outcome (list (option Z)) :=
  match field_index field (dtype_names bars) with
  | None => Raise KeyError
  | Some i =>
      match handler field with
      | None => Raise KeyError
      | Some m => Ok (map (fun g => aggregate m (map (cell i) g)) groups)
      end
  end.

(** The loop [for field in fds: df[field] = ...]. *)
Fixpoint aggregate_fields (bars : recarray) (groups : list (list (list Z)))
    (fds : list string) (df : frame) : outcome frame :=
  match fds with
  | [] => Ok df
  | field :: fds' =>
      match aggregate_field bars groups field with
      | Raise e => Raise e
      | Ok col => aggregate_fields bars groups fds' (set_column df field col)
      end
  end.

(** [mapM] of the outcome type. *)
Fixpoint decode_all (dts : list Z) : outcome (list date) :=
  match dts with
  | [] => Ok []
  | n :: dts' =>
      match convert_int_to_datetime n with
      | Raise e => Raise e
      | Ok d =>
          match decode_all dts' with
          | Raise e => Raise e
          | Ok ds => Ok (d :: ds)
          end
      end
  end.

(** The pandas part of [_resample_k_bars]: from [pd.DataFrame(bars)] to
    [df.to_records(index=False)].  The conversion of the date column back
    to unsigned integers keeps every value. *)
Definition resample_frame (bars : recarray) (fds : list string)
    (frequency : string) : outcome recarray :=
  match column "datetime" bars with
  | Raise _ => Raise KeyError
  | Ok dts =>
      match decode_all dts with
      | Raise e => Raise e
      | Ok dates =>
          match to_offset frequency with
          | Raise e => Raise e
          | Ok o =>
              match rows bars with
              | [] => Raise TypeError
              | _ =>
                  let stamped := sort_stamped (zip dates (rows bars)) in
                  let ks := bins o stamped in
                  let groups := map (bin_rows o stamped) ks in
                  match aggregate_fields bars groups fds
                          (mk_frame [] (map (fun _ => []) ks)) with
                  | Raise e => Raise e
                  | Ok df => Ok (mk_recarray (columns df) (dropna (cells_of df)))
                  end
              end
          end
      end
  end.

Definition _resample_k_bars (bars : recarray) (fields : pyfields)
    (frequency : string) : M recarray :=
  match fields with
  | FNone => raise TypeError
  | FStr s =>
      let* fds := alloc [s] in
      let* cur := read fds in
      let* _ := (if mem "datetime" cur then ret tt
                 else append fds "datetime") in
      let* cur := read fds in
      lift (resample_frame bars cur frequency)
  | FList fds =>
      let* cur := read fds in
      let* _ := (if mem "datetime" cur then ret tt
                 else append fds "datetime") in
      let* cur := read fds in
      lift (resample_frame bars cur frequency)
  end.

(** What an indexing expression returns: a record array or a plain
    column. *)
Inductive ndarray : Type :=
  | Records (a : recarray)
  | Column (c : list Z).

(** [l[lo:hi]] *)
Definition clamp (len k : Z) : Z :=
  if k <? 0 then Z.max 0 (k + len) else Z.min k len.

Definition slice {A} (lo hi : Z) (l : list A) : list A :=
  let len := Z.of_nat (length l) in
  let lo := clamp len lo in
  let hi := clamp len hi in
  take (Z.to_nat (hi - lo)) (drop (Z.to_nat lo) l).

(** [a[fields]] for a list of names: the empty list is an empty index
    array; otherwise every name must be a field of the dtype and none may
    occur twice. *)
Fixpoint field_indexes (fs names : list string) : option (list nat) :=
  match fs with
  | [] => Some []
  | f :: fs' =>
      match field_index f names, field_indexes fs' names with
      | Some i, Some ixs => Some (i :: ixs)
      | _, _ => None
      end
  end.

Fixpoint has_dup (fs : list string) : bool :=
  match fs with
  | [] => false
  | f :: fs' => mem f fs' || has_dup fs'
  end.

Definition getitem_names (a : recarray) (fs : list string) : outcome recarray :=
  match fs with
  | [] => Ok (mk_recarray (dtype_names a) [])
  | _ =>
      match field_indexes fs (dtype_names a) with
      | None => Raise KeyError
      | Some ixs =>
          if has_dup fs then Raise ValueError
          else Ok (mk_recarray fs (map (fun r => map (fun i => cell i r) ixs) (rows a)))
      end
  end.

Definition getitem (a : recarray) (fields : pyfields) : M ndarray :=
  match fields with
  | FNone => ret (Records a)
  | FStr s =>
      match column s a with
      | Ok c => ret (Column c)
      | Raise e => raise e
      end
  | FList l =>
      let* fs := read l in
      match getitem_names a fs with
      | Ok a' => ret (Records a')
      | Raise e => raise e
      end
  end.

(** The two frequency tests of [history_bars]: weekly and monthly bars
    are resampled, daily bars pass unchanged. *)
Definition resample_step (frequency : string) (bars : recarray)
    (fields : pyfields) : M recarray :=
  let* bars := (if String.eqb frequency "W"
                then _resample_k_bars bars fields "W-Fri"
                else ret bars) in
  if String.eqb frequency "M"
  then _resample_k_bars bars fields "M"
  else ret bars.

Definition history_bars (self : BaseDataSource) (ins : instrument)
    (bar_count : Z) (frequency : string) (fields : pyfields) (dt : date)
    (skip_suspended include_now : bool) : M (option ndarray) :=
  if negb (mem frequency ["1d"; "W"; "M"]) then raise NotImplementedError
  else
    let* bars :=
      lift (if skip_suspended && String.eqb (type ins) "CS"
            then _filtered_day_bars self ins
            else _all_day_bars_of self ins) in
    match bars with
    | None => ret None
    | Some bars =>
        let* valid := _are_fields_valid fields (dtype_names bars) in
        if negb valid then ret None
        else
          let* bars := resample_step frequency bars fields in
          let dt := convert_date_to_int dt in
          let* dts := lift (column "datetime" bars) in
          let i := Z.of_nat (searchsorted dts dt SRight) in
          let left := if bar_count <=? i then i - bar_count else 0 in
          let window := mk_recarray (dtype_names bars) (slice left i (rows bars)) in
          match fields with
          | FNone => ret (Some (Records window))
          | _ => let* r := getitem window fields in ret (Some r)
          end
    end.

(** ** Vocabulary of the specification *)

(** The series a history query works on, in the words of the
    specification: the volume-filtered series when suspended days are to
    be skipped and the instrument is an equity, the full series
    otherwise. *)
Definition selected_series (self : BaseDataSource) (ins : instrument)
    (skip_suspended : bool) : outcome (option recarray) :=
  if skip_suspended && String.eqb (type ins) "CS"
  then _filtered_day_bars self ins
  else _all_day_bars_of self ins.

(** A source all of whose tables hold the one series [s]. *)
Definition with_series (s : option recarray) : BaseDataSource :=
  mk_source (fun _ => s) (fun _ => s) (fun _ => s) (fun _ => s).

(** The names a field set asks for; [None] stands for "all fields". *)
Definition requested (fields : pyfields) (h : heap) : option (list string) :=
  match fields with
  | FNone => None
  | FStr s => Some [s]
  | FList l => Some (deref h l)
  end.

(** Number of records (or of values, for a plain column). *)
Definition result_length (r : ndarray) : nat :=
  match r with
  | Records a => length (rows a)
  | Column c => length c
  end.

(** Ascending and strictly ascending sequences of date keys. *)
Fixpoint ascendingb (l : list Z) : bool :=
  match l with
  | x :: ((y :: _) as l') => (x <=? y) && ascendingb l'
  | _ => true
  end.

Fixpoint strictly_ascendingb (l : list Z) : bool :=
  match l with
  | x :: ((y :: _) as l') => (x <? y) && strictly_ascendingb l'
  | _ => true
  end.

(** A date key that denotes a calendar date. *)
Definition valid_key (n : Z) : bool := valid_date (date_of_int n).

(** The calendar bucket (week ending on Friday, or month) of a record,
    from the date key in its cell [i]; the records of one bucket, in
    series order. *)
Definition row_bucket (o : offset) (i : nat) (r : list Z) : Z :=
  bucket o (date_of_int (cell i r)).

Definition bucket_rows (o : offset) (i : nat) (rs : list (list Z)) (k : Z)
    : list (list Z) :=
  List.filter (fun r => row_bucket o i r =? k) rs.

(** The column of a field over some records of an array. *)
Definition column_of (names : list string) (field : string)
    (g : list (list Z)) : list Z :=
  match field_index field names with
  | Some j => map (cell j) g
  | None => []
  end.

Definition total (col : list Z) : Z := foldr Z.add 0 col.

(** The aggregation table of the specification: [v] is the value of
    [field] for a bucket whose bars have the values [col] in that field. *)
Definition aggregates_to (field : string) (col : list Z) (v : Z) : Prop :=
  if String.eqb field "datetime" then list.last col = Some v
  else if String.eqb field "open" then head col = Some v
  else if String.eqb field "high" then v ∈ col /\ Forall (fun x => x <= v) col
  else if String.eqb field "low" then v ∈ col /\ Forall (fun x => v <= x) col
  else if String.eqb field "close" then list.last col = Some v
  else if String.eqb field "volume" then v = total col
  else if String.eqb field "total_turnover" then v = total col
  else False.

(** The cell the resampler computes for one field and the records of
    one bin; NaN is [None]. *)
Definition agg_cell (bars : recarray) (field : string) (g : list (list Z))
    : option Z :=
  match handler field with
  | Some m => aggregate m (column_of (dtype_names bars) field g)
  | None => None
  end.

Definition nonempty {A} (l : list A) : bool :=
  match l with [] => false | _ => true end.

(** The bins pandas lays over a series: every bucket from the one of the
    first record to the one of the last; and those that hold a record. *)
Definition calendar_bins (o : offset) (i : nat) (rs : list (list Z)) : list Z :=
  match rs with
  | [] => []
  | r0 :: rs' =>
      seqZ (row_bucket o i r0)
        (row_bucket o i (default r0 (list.last rs')) - row_bucket o i r0 + 1)
  end.

Definition data_bins (o : offset) (i : nat) (rs : list (list Z)) : list Z :=
  List.filter (fun k => nonempty (bucket_rows o i rs k)) (calendar_bins o i rs).

(** The field list after normalisation. *)
Definition with_datetime (fs : list string) : list string :=
  if mem "datetime" fs then fs else fs ++ ["datetime"].

(** ** A small data set *)

Module Demo.

Definition names7 : list string :=
  ["datetime"; "open"; "close"; "high"; "low"; "volume"; "total_turnover"].

(** Monday 2 to Thursday 5 January 2017 (no trade on Friday 6), Monday 9,
    Monday 23 January and Wednesday 1 February; no volume on 3 January. *)
Definition bars : recarray := mk_recarray names7
  [ [20170102; 10; 10; 11; 9; 100; 1000];
    [20170103; 11; 12; 13; 10; 0; 0];
    [20170104; 12; 9; 12; 8; 300; 3000];
    [20170105; 9; 15; 16; 9; 400; 4000];
    [20170109; 15; 16; 17; 14; 500; 5000];
    [20170123; 16; 18; 19; 15; 600; 6000];
    [20170201; 18; 20; 21; 17; 700; 7000] ].

(** A future, whose records also carry a settlement price. *)
Definition future_bars : recarray :=
  mk_recarray (names7 ++ ["settlement"])
    [ [20170102; 10; 10; 11; 9; 100; 1000; 10];
      [20170103; 11; 12; 13; 10; 200; 2000; 12] ].

Definition source : BaseDataSource :=
  mk_source (fun id => if String.eqb id "000001.XSHE" then Some bars else None)
            (fun _ => None)
            (fun id => if String.eqb id "IF88" then Some future_bars else None)
            (fun _ => None).

Definition stock : instrument := mk_instrument "CS" "000001.XSHE".
Definition unlisted : instrument := mk_instrument "CS" "600000.XSHG".
Definition future : instrument := mk_instrument "Future" "IF88".
Definition option_contract : instrument := mk_instrument "Option" "10000001".

(** The caller holds one list object, [["close"; "volume"]]. *)
Definition caller_heap : heap := {[ 0%nat := ["close"; "volume"] ]}.

End Demo.

(** A daily series as the bar tables hold it: not empty, with the date
    key in column [i], every key a calendar date, strictly ascending. *)
Definition daily_series (bars : recarray) (i : nat) : Prop :=
  field_index "datetime" (dtype_names bars) = Some i /\
  rows bars <> [] /\
  Forall (fun n => valid_key n = true) (map (cell i) (rows bars)) /\
  strictly_ascendingb (map (cell i) (rows bars)) = true.

(** A set of distinct fields of the schema, each with an aggregation
    rule. *)
Definition ruled_fields (bars : recarray) (fs : list string) : Prop :=
  NoDup fs /\
  forall f, f ∈ fs -> f ∈ dtype_names bars /\ is_Some (handler f).

(** ** The settlement price *)

(** [bar[name]] on one record: the cell, or an error when the record has
    no such field (numpy's "no field of name", a [ValueError] in its
    current versions). *)
Definition record_field (name : string) (bar : record) : outcome Z :=
  match field_index name (record_names bar) with
  | Some j => Ok (cell j (cells bar))
  | None => Raise ValueError
  end.

(** [get_settle_price]: the settlement of the daily bar of the date;
    [np.nan], here [None], when there is no bar. *)
Definition get_settle_price (self : BaseDataSource) (ins : instrument)
    (dt : date) : outcome (option Z) :=
  match get_bar self ins dt "1d" with
  | Raise e => Raise e
  | Ok None => Ok None
  | Ok (Some bar) =>
      match record_field "settlement" bar with
      | Ok v => Ok (Some v)
      | Raise e => Raise e
      end
  end.

(** The value of a field in a record of an array with the given names. *)
Definition field_value (names : list string) (field : string) (r : list Z) : Z :=
  match field_index field names with
  | Some j => cell j r
  | None => 0
  end.

(** ** Basic facts *)

Lemma mem_elem_of (f : string) (names : list string) :
  mem f names = true <-> f ∈ names.
Proof.
  unfold mem. rewrite existsb_exists. split.
  - intros (x & Hin & Heq). apply String.eqb_eq in Heq. subst.
    by apply list_elem_of_In.
  - intros Hin. exists f. split; [by apply list_elem_of_In | apply String.eqb_refl].
Qed.

Lemma mem_false (f : string) (names : list string) :
  mem f names = false <-> f ∉ names.
Proof.
  rewrite <- mem_elem_of. destruct (mem f names); split; congruence.
Qed.

Lemma field_index_Some (f : string) (names : list string) :
  f ∈ names -> exists i, field_index f names = Some i /\ names !! i = Some f.
Proof.
  induction names as [|n names IH]; intros Hin.
  - by apply not_elem_of_nil in Hin.
  - simpl. destruct (String.eqb f n) eqn:E.
    + apply String.eqb_eq in E. subst. by exists 0%nat.
    + apply String.eqb_neq in E. apply elem_of_cons in Hin as [?|Hin]; [done|].
      destruct (IH Hin) as (i & -> & Hi). by exists (S i).
Qed.

Lemma field_index_None (f : string) (names : list string) :
  f ∉ names -> field_index f names = None.
Proof.
  induction names as [|n names IH]; intros Hin; [done|].
  simpl. apply not_elem_of_cons in Hin as [Hne Hin].
  apply String.eqb_neq in Hne. rewrite Hne, (IH Hin). done.
Qed.

Lemma supported_frequency (frequency : string) :
  mem frequency ["1d"; "W"; "M"] = true <->
  frequency = "1d" \/ frequency = "W" \/ frequency = "M".
Proof.
  rewrite mem_elem_of. rewrite !elem_of_cons, elem_of_nil. tauto.
Qed.

(** The body of [history_bars] once the frequency is known to be
    supported. *)
Lemma history_bars_supported self ins bar_count frequency fields dt skip inc h :
  mem frequency ["1d"; "W"; "M"] = true ->
  history_bars self ins bar_count frequency fields dt skip inc h =
  match selected_series self ins skip with
  | Raise e => (Raise e, h)
  | Ok None => (Ok None, h)
  | Ok (Some bars) =>
      match _are_fields_valid fields (dtype_names bars) h with
      | (Ok false, h1) => (Ok None, h1)
      | (Raise e, h1) => (Raise e, h1)
      | (Ok true, h1) =>
          match resample_step frequency bars fields h1 with
          | (Raise e, h2) => (Raise e, h2)
          | (Ok bars', h2) =>
              match column "datetime" bars' with
              | Raise e => (Raise e, h2)
              | Ok dts =>
                  let i := Z.of_nat (searchsorted dts (convert_date_to_int dt) SRight) in
                  let left := if bar_count <=? i then i - bar_count else 0 in
                  let window :=
                    mk_recarray (dtype_names bars') (slice left i (rows bars')) in
                  match getitem window fields h2 with
                  | (Ok r, h3) => (Ok (Some r), h3)
                  | (Raise e, h3) => (Raise e, h3)
                  end
              end
          end
      end
  end.
Proof.
  intros Hf. unfold history_bars, selected_series. rewrite Hf. simpl.
  unfold bind at 1. unfold lift at 1.
  destruct (if skip && String.eqb (type ins) "CS" then _ else _)
    as [[bars|]|e]; try reflexivity.
  unfold bind at 1.
  destruct (_are_fields_valid fields (dtype_names bars) h) as [[[|]|e] h1];
    try reflexivity.
  simpl. unfold bind at 1.
  destruct (resample_step frequency bars fields h1) as [[bars'|e] h2];
    try reflexivity.
  unfold bind at 1, lift at 1.
  destruct (column "datetime" bars') as [dts|e]; try reflexivity.
  destruct fields; try reflexivity.
Qed.

(** Validation reads the field list and writes nothing. *)
Lemma _are_fields_valid_pure fields names h :
  exists b, _are_fields_valid fields names h = (Ok b, h).
Proof. destruct fields; simpl; eauto. Qed.

Lemma _are_fields_valid_true fields names h :
  _are_fields_valid fields names h = (Ok true, h) <->
  forall fs, requested fields h = Some fs -> forall f, f ∈ fs -> f ∈ names.
Proof.
  destruct fields as [|s|l]; simpl.
  - split; [intros _ fs; discriminate | reflexivity].
  - unfold ret. split.
    + intros H fs [= <-] f Hf. apply list_elem_of_singleton in Hf as ->.
      apply mem_elem_of. congruence.
    + intros H. f_equal. f_equal. apply mem_elem_of, (H [s]); [done|].
      by apply list_elem_of_singleton.
  - unfold bind, read, ret. split.
    + intros H fs [= <-] f Hf.
      assert (Hall : forallb (fun field => mem field names) (deref h l) = true)
        by congruence.
      rewrite forallb_forall in Hall. apply mem_elem_of, Hall.
      by apply list_elem_of_In.
    + intros H. f_equal. f_equal. apply forallb_forall. intros f Hf.
      apply mem_elem_of, (H (deref h l)); [done|]. by apply list_elem_of_In.
Qed.

(** ** Unsupported frequencies *)

(** C6: [get_bar] raises the unsupported-frequency error for every
    frequency other than daily, and [history_bars] for every frequency
    other than daily, weekly and monthly.  The error comes first: it is
    the same for every data source, instrument (even one whose table
    lookup would fail), field set and state, and the state is left as it
    was. *)
Theorem unsupported_frequency_raises
    (self : BaseDataSource) (ins : instrument) (dt : date)
    (frequency : string) (bar_count : Z) (fields : pyfields)
    (skip_suspended include_now : bool) (h : heap) :
  (frequency <> "1d" ->
     get_bar self ins dt frequency = Raise NotImplementedError) /\
  (frequency ∉ ["1d"; "W"; "M"] ->
     history_bars self ins bar_count frequency fields dt
       skip_suspended include_now h = (Raise NotImplementedError, h)).
Proof.
  split.
  - intros Hne. unfold get_bar.
    apply String.eqb_neq in Hne. by rewrite Hne.
  - intros Hnot. unfold history_bars.
    apply mem_false in Hnot. by rewrite Hnot.
Qed.

Lemma unsupported_frequency_raises_witness :
  get_bar Demo.source Demo.option_contract (mk_date 2017 1 4) "W"
    = Raise NotImplementedError /\
  history_bars Demo.source Demo.option_contract 3 "1m" (FList 0%nat)
    (mk_date 2017 1 4) true false Demo.caller_heap
    = (Raise NotImplementedError, Demo.caller_heap).
Proof.
  split.
  - apply (unsupported_frequency_raises Demo.source Demo.option_contract
             (mk_date 2017 1 4) "W" 3 FNone true false ∅).
    discriminate.
  - apply (unsupported_frequency_raises Demo.source Demo.option_contract
             (mk_date 2017 1 4) "1m" 3 (FList 0%nat) true false
             Demo.caller_heap).
    apply mem_false. reflexivity.
Defined.

(** ** Resampling without a field restriction *)

(** C9: with a present selected series, [fields = None] and a weekly or
    monthly frequency, [history_bars] raises: validation accepts [None],
    and the resampler then tests ["datetime" not in None]. *)
Theorem history_bars_all_fields_resampled_raises
    (self : BaseDataSource) (ins : instrument) (bar_count : Z)
    (frequency : string) (dt : date) (skip_suspended include_now : bool)
    (h : heap) (bars : recarray) :
  selected_series self ins skip_suspended = Ok (Some bars) ->
  frequency = "W" \/ frequency = "M" ->
  history_bars self ins bar_count frequency FNone dt
    skip_suspended include_now h = (Raise TypeError, h).
Proof.
  intros Hsel Hf.
  rewrite history_bars_supported by (apply supported_frequency; tauto).
  rewrite Hsel. simpl.
  destruct Hf as [-> | ->]; reflexivity.
Qed.

Lemma history_bars_all_fields_resampled_raises_witness :
  selected_series Demo.source Demo.stock true
    = Ok (Some (mk_recarray Demo.names7
                  (List.filter (fun r => 0 <? cell 5 r) (rows Demo.bars)))) /\
  history_bars Demo.source Demo.stock 3 "W" FNone (mk_date 2017 1 31)
    true false Demo.caller_heap = (Raise TypeError, Demo.caller_heap).
Proof.
  split; [reflexivity|].
  apply (history_bars_all_fields_resampled_raises Demo.source Demo.stock 3 "W"
           (mk_date 2017 1 31) true false Demo.caller_heap
           (mk_recarray Demo.names7
              (List.filter (fun r => 0 <? cell 5 r) (rows Demo.bars)))).
  - reflexivity.
  - by left.
Defined.

(** ** Which series a query reads *)

Lemma _all_day_bars_of_with_series s ins sel :
  _all_day_bars_of (with_series s) ins = Ok sel -> sel = s.
Proof.
  unfold _all_day_bars_of. destruct (_index_of ins) as [i|e]; [|discriminate].
  intros [= <-]. by destruct i as [|[|[|i]]].
Qed.

Lemma _all_day_bars_of_known self ins sel s :
  _all_day_bars_of self ins = Ok sel ->
  _all_day_bars_of (with_series s) ins = Ok s.
Proof.
  unfold _all_day_bars_of. destruct (_index_of ins) as [i|e]; [|discriminate].
  intros _. by destruct i as [|[|[|i]]].
Qed.

Lemma _filtered_day_bars_known self ins sel :
  _filtered_day_bars self ins = Ok sel ->
  exists full, _all_day_bars_of self ins = Ok full.
Proof.
  unfold _filtered_day_bars.
  destruct (_all_day_bars_of self ins) as [full|e]; [eauto|discriminate].
Qed.

(** The result of [history_bars] is a function of the series it
    selects. *)
Lemma history_bars_on_selected self ins bar_count frequency fields dt
    skip inc h sel :
  mem frequency ["1d"; "W"; "M"] = true ->
  selected_series self ins skip = Ok sel ->
  history_bars self ins bar_count frequency fields dt skip inc h
  = history_bars (with_series sel) ins bar_count frequency fields dt
      false inc h.
Proof.
  intros Hf Hsel.
  assert (Hknown : _all_day_bars_of (with_series sel) ins = Ok sel).
  { unfold selected_series in Hsel.
    destruct (skip && String.eqb (type ins) "CS").
    - apply _filtered_day_bars_known in Hsel as [full Hfull].
      by apply (_all_day_bars_of_known self ins full).
    - by apply (_all_day_bars_of_known self ins sel). }
  rewrite !history_bars_supported by done.
  rewrite Hsel. unfold selected_series. simpl. by rewrite Hknown.
Qed.

(** C7: for a supported frequency, [history_bars] works on the
    volume-filtered series when [skip_suspended] is set and the instrument
    is an equity (type ["CS"]), and on the full series when
    [skip_suspended] is not set or the instrument is of another class: its
    result is that of a query without suspension filtering on a source
    that holds exactly that series.  When the series so selected is
    absent the result is [None], whatever the other arguments. *)
Theorem history_bars_series_selection
    (self : BaseDataSource) (ins : instrument) (bar_count : Z)
    (frequency : string) (fields : pyfields) (dt : date)
    (skip_suspended include_now : bool) (h : heap)
    (sel : option recarray) :
  mem frequency ["1d"; "W"; "M"] = true ->
  (skip_suspended = true -> type ins = "CS" ->
     _filtered_day_bars self ins = Ok sel) ->
  (skip_suspended = false \/ type ins <> "CS" ->
     _all_day_bars_of self ins = Ok sel) ->
  history_bars self ins bar_count frequency fields dt
    skip_suspended include_now h
  = history_bars (with_series sel) ins bar_count frequency fields dt
      false include_now h
  /\ (sel = None ->
      history_bars self ins bar_count frequency fields dt
        skip_suspended include_now h = (Ok None, h)).
Proof.
  intros Hf Hfiltered Hfull.
  assert (Hsel : selected_series self ins skip_suspended = Ok sel).
  { unfold selected_series.
    destruct skip_suspended; simpl.
    - destruct (String.eqb (type ins) "CS") eqn:E.
      + apply String.eqb_eq in E. by apply Hfiltered.
      + apply String.eqb_neq in E. apply Hfull. by right.
    - apply Hfull. by left. }
  split; [by apply history_bars_on_selected|].
  intros ->. rewrite history_bars_supported by done. by rewrite Hsel.
Qed.

Lemma history_bars_series_selection_witness :
  history_bars Demo.source Demo.stock 3 "1d" FNone (mk_date 2017 1 4)
    true false Demo.caller_heap
  = (Ok (Some (Records (mk_recarray Demo.names7
       [ [20170102; 10; 10; 11; 9; 100; 1000];
         [20170104; 12; 9; 12; 8; 300; 3000] ]))), Demo.caller_heap)
  /\ history_bars Demo.source Demo.future 3 "1d" (FStr "settlement")
       (mk_date 2017 1 4) true false Demo.caller_heap
     = (Ok (Some (Column [10; 12])), Demo.caller_heap)
  /\ history_bars Demo.source Demo.unlisted 3 "W" (FList 0%nat)
       (mk_date 2017 1 4) true false Demo.caller_heap
     = (Ok None, Demo.caller_heap).
Proof.
  split; [|split].
  - destruct (history_bars_series_selection Demo.source Demo.stock 3 "1d"
      FNone (mk_date 2017 1 4) true false Demo.caller_heap
      (Some (mk_recarray Demo.names7
               (List.filter (fun r => 0 <? cell 5 r) (rows Demo.bars))))
      eq_refl) as [H _].
    + reflexivity.
    + intros [Hs | Ht]; [discriminate | by destruct Ht].
    + rewrite H. reflexivity.
  - destruct (history_bars_series_selection Demo.source Demo.future 3 "1d"
      (FStr "settlement") (mk_date 2017 1 4) true false Demo.caller_heap
      (Some Demo.future_bars) eq_refl) as [H _].
    + intros _ Ht. discriminate Ht.
    + reflexivity.
    + rewrite H. reflexivity.
  - apply (history_bars_series_selection Demo.source Demo.unlisted 3 "W"
      (FList 0%nat) (mk_date 2017 1 4) true false Demo.caller_heap None
      eq_refl).
    + reflexivity.
    + intros [Hs | Ht]; [discriminate | by destruct Ht].
    + reflexivity.
Defined.

(** ** Field validation *)

(** C8: for a supported frequency and a selection that does not fail, a
    field set that names a field outside the schema of the selected
    series makes [history_bars] return [None], the answer for "no data",
    and leaves the state as it was; ["all"] ([None]), and every single
    name or list of names inside the schema, pass the validation. *)
Theorem history_bars_invalid_fields_absent
    (self : BaseDataSource) (ins : instrument) (bar_count : Z)
    (frequency : string) (fields : pyfields) (dt : date)
    (skip_suspended include_now : bool) (h : heap)
    (sel : option recarray) (valid_fields : list string) :
  mem frequency ["1d"; "W"; "M"] = true ->
  selected_series self ins skip_suspended = Ok sel ->
  (forall bars, sel = Some bars ->
     exists fs f, requested fields h = Some fs /\ f ∈ fs /\
                  f ∉ dtype_names bars) ->
  history_bars self ins bar_count frequency fields dt
    skip_suspended include_now h = (Ok None, h)
  /\ _are_fields_valid FNone valid_fields h = (Ok true, h)
  /\ (forall fields' fs, requested fields' h = Some fs ->
        (forall f, f ∈ fs -> f ∈ valid_fields) ->
        _are_fields_valid fields' valid_fields h = (Ok true, h)).
Proof.
  intros Hf Hsel Hbad. split; [|split].
  - rewrite history_bars_supported by done. rewrite Hsel.
    destruct sel as [bars|]; [|reflexivity].
    destruct (Hbad bars eq_refl) as (fs & f & Hreq & Hin & Hout).
    destruct (_are_fields_valid_pure fields (dtype_names bars) h) as [[|] Hv];
      rewrite Hv; [|reflexivity].
    exfalso. apply Hout.
    by apply (proj1 (_are_fields_valid_true _ _ _) Hv fs Hreq f).
  - reflexivity.
  - intros fields' fs Hreq Hall. apply _are_fields_valid_true.
    intros fs' Hreq' f Hin. rewrite Hreq in Hreq'. injection Hreq' as <-. auto.
Qed.

Lemma history_bars_invalid_fields_absent_witness :
  history_bars Demo.source Demo.stock 3 "1d" (FList 1%nat) (mk_date 2017 1 4)
    true false (<[1%nat := ["close"; "nonexistent_field"]]> Demo.caller_heap)
  = (Ok None, <[1%nat := ["close"; "nonexistent_field"]]> Demo.caller_heap).
Proof.
  apply (history_bars_invalid_fields_absent Demo.source Demo.stock 3 "1d"
    (FList 1%nat) (mk_date 2017 1 4) true false
    (<[1%nat := ["close"; "nonexistent_field"]]> Demo.caller_heap)
    (Some (mk_recarray Demo.names7
             (List.filter (fun r => 0 <? cell 5 r) (rows Demo.bars))))
    Demo.names7 eq_refl eq_refl).
  intros bars [= <-].
  exists ["close"; "nonexistent_field"], "nonexistent_field".
  split; [reflexivity|]. split.
  - apply mem_elem_of. reflexivity.
  - apply mem_false. reflexivity.
Defined.

(** ** The volume filter *)

Lemma mask_select_filter {A B} (p : B -> bool) (f : A -> B) (l : list A) :
  mask_select (map p (map f l)) l = List.filter (fun x => p (f x)) l.
Proof.
  induction l as [|x l IH]; [done|]. simpl. rewrite IH. reflexivity.
Qed.

Lemma filter_sublist {A} (p : A -> bool) (l : list A) :
  sublist (List.filter p l) l.
Proof.
  induction l as [|x l IH]; simpl; [constructor|].
  destruct (p x); by constructor.
Qed.

(** C4: when the full series of an instrument is present (and has a
    volume column, as every bar schema does), the filtered series has the
    same schema and holds exactly the records of the full series with
    [volume > 0], in their order: it is a subsequence of the full series,
    and a record is in it if and only if it is in the full series with a
    positive volume.  When the full series is absent so is the filtered
    one. *)
Theorem _filtered_day_bars_positive_volume
    (self : BaseDataSource) (ins : instrument) (full : option recarray)
    (v : nat) :
  _all_day_bars_of self ins = Ok full ->
  (forall bars, full = Some bars ->
     field_index "volume" (dtype_names bars) = Some v) ->
  match full with
  | None => _filtered_day_bars self ins = Ok None
  | Some bars =>
      exists kept,
        _filtered_day_bars self ins
          = Ok (Some (mk_recarray (dtype_names bars) kept)) /\
        kept = List.filter (fun r => 0 <? cell v r) (rows bars) /\
        sublist kept (rows bars) /\
        (forall r, r ∈ kept <-> r ∈ rows bars /\ 0 < cell v r)
  end.
Proof.
  intros Hfull Hvol. unfold _filtered_day_bars. rewrite Hfull.
  destruct full as [bars|]; [|reflexivity].
  unfold column. rewrite (Hvol bars eq_refl).
  rewrite (mask_select_filter (fun x => 0 <? x) (cell v)).
  eexists. split; [reflexivity|]. split; [reflexivity|]. split.
  - apply filter_sublist.
  - intros r. rewrite !list_elem_of_In, filter_In, Z.ltb_lt. tauto.
Qed.

Lemma _filtered_day_bars_positive_volume_witness :
  (exists kept,
     _filtered_day_bars Demo.source Demo.stock
       = Ok (Some (mk_recarray Demo.names7 kept)) /\
     kept = List.filter (fun r => 0 <? cell 5 r) (rows Demo.bars) /\
     sublist kept (rows Demo.bars) /\
     (forall r, r ∈ kept <-> r ∈ rows Demo.bars /\ 0 < cell 5 r))
  /\ _filtered_day_bars Demo.source Demo.unlisted = Ok None.
Proof.
  split.
  - apply (_filtered_day_bars_positive_volume Demo.source Demo.stock
             (Some Demo.bars) 5 eq_refl).
    intros bars [= <-]. reflexivity.
  - apply (_filtered_day_bars_positive_volume Demo.source Demo.unlisted
             None 5 eq_refl).
    intros bars. discriminate.
Defined.

(** ** Binary search on an ascending column *)

Lemma ascendingb_cons x l :
  ascendingb (x :: l) = true -> ascendingb l = true /\ Forall (fun y => x <= y) l.
Proof.
  revert x. induction l as [|y l IH]; intros x H; [by split|].
  simpl in H. apply andb_prop in H as [Hxy Hl]. apply Z.leb_le in Hxy.
  split; [exact Hl|]. constructor; [exact Hxy|].
  destruct (IH y Hl) as [_ Hy].
  eapply Forall_impl; [|exact Hy]. simpl; intros; lia.
Qed.

Lemma ascendingb_nth a :
  ascendingb a = true ->
  forall i j, (i <= j < length a)%nat -> nth i a 0 <= nth j a 0.
Proof.
  induction a as [|x a IH]; intros Ha i j Hij; [simpl in Hij; lia|].
  destruct (ascendingb_cons _ _ Ha) as [Ha' Hx].
  destruct i as [|i], j as [|j]; simpl in *; try lia.
  - rewrite Forall_forall in Hx. apply Hx.
    apply nth_In. lia.
  - apply IH; [done|lia].
Qed.

Lemma strictly_ascendingb_ascendingb l :
  strictly_ascendingb l = true -> ascendingb l = true.
Proof.
  induction l as [|x [|y l] IH]; intros H; try reflexivity.
  simpl in H. apply andb_prop in H as [Hxy Hl]. apply Z.ltb_lt in Hxy.
  change (((x <=? y) && ascendingb (y :: l))%bool = true).
  rewrite (IH Hl), andb_true_r. apply Z.leb_le. lia.
Qed.

Lemma goes_right_mono s v v' key :
  v' <= v -> goes_right s v key = true -> goes_right s v' key = true.
Proof.
  destruct s; simpl; rewrite ?Z.ltb_lt, ?Z.leb_le; lia.
Qed.

(** The loop invariant of the bisection: everything left of [lo] is
    passed, nothing from [hi] on is; the loop ends with [lo = hi]. *)
Lemma bisect_spec s a key fuel : forall lo hi,
  (forall i j, (i <= j < length a)%nat -> nth i a 0 <= nth j a 0) ->
  (hi - lo <= fuel)%nat -> (lo <= hi <= length a)%nat ->
  (forall i, (i < lo)%nat -> goes_right s (nth i a 0) key = true) ->
  (forall i, (hi <= i < length a)%nat -> goes_right s (nth i a 0) key = false) ->
  let p := bisect s a key fuel lo hi in
  (lo <= p <= hi)%nat /\
  (forall i, (i < p)%nat -> goes_right s (nth i a 0) key = true) /\
  (forall i, (p <= i < length a)%nat -> goes_right s (nth i a 0) key = false).
Proof.
  induction fuel as [|fuel IH]; intros lo hi Hasc Hfuel Hb Hlo Hhi;
    cbn [bisect]; cbv zeta.
  - assert (lo = hi) by lia. subst. repeat split; auto; lia.
  - destruct (lo <? hi)%nat eqn:Hlt.
    2:{ apply Nat.ltb_ge in Hlt. assert (lo = hi) by lia. subst.
        repeat split; auto; lia. }
    apply Nat.ltb_lt in Hlt.
    set (mid := (lo + (hi - lo) / 2)%nat).
    assert (Hmid : (lo <= mid < hi)%nat).
    { subst mid. assert ((hi - lo) / 2 < hi - lo)%nat by (apply Nat.div_lt; lia).
      lia. }
    fold mid. clearbody mid.
    destruct (goes_right s (nth mid a 0) key) eqn:Hg.
    + destruct (IH (S mid) hi Hasc) as (Hp & Hl & Hr); try lia; auto.
      { intros i Hi. apply (goes_right_mono s (nth mid a 0)); [|done].
        apply Hasc. lia. }
      repeat split; auto; lia.
    + destruct (IH lo mid Hasc) as (Hp & Hl & Hr); try lia; auto.
      { intros i Hi. destruct (goes_right s (nth i a 0) key) eqn:Hgi; [|done].
        rewrite <- Hg. symmetry.
        apply (goes_right_mono s (nth i a 0)); [|done]. apply Hasc. lia. }
      repeat split; auto; lia.
Qed.

(** On an ascending column [searchsorted] returns the boundary: the
    values before it are below the key (not above it, for
    [side='right']), the values from it on are not. *)
Lemma searchsorted_spec a key s :
  ascendingb a = true ->
  let p := searchsorted a key s in
  (p <= length a)%nat /\
  Forall (fun v => goes_right s v key = true) (take p a) /\
  Forall (fun v => goes_right s v key = false) (drop p a).
Proof.
  intros Ha. unfold searchsorted.
  pose proof (bisect_spec s a key (length a) 0%nat (length a)
                (ascendingb_nth a Ha)) as H.
  destruct H as (Hp & Hl & Hr); [lia | lia | intros; lia | intros; lia |].
  split; [lia|]. split.
  - apply Forall_lookup. intros i v Hi.
    apply lookup_take_Some in Hi as [Hi Hlt].
    rewrite <- (nth_lookup_Some _ _ 0 _ Hi). by apply Hl.
  - apply Forall_lookup. intros i v Hi.
    rewrite lookup_drop in Hi.
    rewrite <- (nth_lookup_Some _ _ 0 _ Hi). apply Hr.
    apply lookup_lt_Some in Hi. lia.
Qed.

(** ** Exact lookup *)

Lemma cell_nil i : cell i [] = 0.
Proof. by destruct i. Qed.

Lemma nth_column i (rs : list (list Z)) p :
  nth p (map (cell i) rs) 0 = cell i (nth p rs []).
Proof. rewrite <- (cell_nil i) at 1. apply map_nth. Qed.

Lemma lookup_nth {A} (l : list A) (i : nat) (d : A) :
  (i < length l)%nat -> l !! i = Some (nth i l d).
Proof.
  intros Hi. destruct (nth_lookup_or_length l i d) as [H|H]; [done|lia].
Qed.

(** The outcome of [get_bar] on a present series, by the position the
    left bisection returns. *)
Lemma get_bar_daily self ins d bars i :
  _all_day_bars_of self ins = Ok (Some bars) ->
  field_index "datetime" (dtype_names bars) = Some i ->
  let dts := map (cell i) (rows bars) in
  let key := convert_date_to_int d in
  let pos := searchsorted dts key SLeft in
  get_bar self ins d "1d" =
    if ((length (rows bars) <=? pos)%nat || negb (nth pos dts 0 =? key))%bool
    then Ok None
    else Ok (Some (mk_record (dtype_names bars) (nth pos (rows bars) []))).
Proof.
  intros Hfull Hi. unfold get_bar, column. simpl. rewrite Hfull, Hi. reflexivity.
Qed.

(** C5: on a present full series that is ascending by date, daily
    [get_bar] returns a record of the series whose date key is the one of
    the requested date exactly when the series has such a record, and
    [None] otherwise, in particular when every record is older than the
    requested date; when the instrument has no series the result is
    [None]. *)
Theorem get_bar_exact_date
    (self : BaseDataSource) (ins : instrument) (d : date)
    (full : option recarray) (i : nat) :
  _all_day_bars_of self ins = Ok full ->
  (forall bars, full = Some bars ->
     field_index "datetime" (dtype_names bars) = Some i /\
     ascendingb (map (cell i) (rows bars)) = true) ->
  match full with
  | None => get_bar self ins d "1d" = Ok None
  | Some bars =>
      let key := convert_date_to_int d in
      ((exists r, r ∈ rows bars /\ cell i r = key) ->
         exists r, get_bar self ins d "1d"
                     = Ok (Some (mk_record (dtype_names bars) r)) /\
                   r ∈ rows bars /\ cell i r = key) /\
      (~ (exists r, r ∈ rows bars /\ cell i r = key) ->
         get_bar self ins d "1d" = Ok None) /\
      (Forall (fun r => cell i r < key) (rows bars) ->
         get_bar self ins d "1d" = Ok None)
  end.
Proof.
  intros Hfull Hwf. destruct full as [bars|].
  2:{ unfold get_bar. simpl. by rewrite Hfull. }
  destruct (Hwf bars eq_refl) as [Hi Hasc]. intros key.
  rewrite (get_bar_daily self ins d bars i Hfull Hi). cbv zeta. fold key.
  set (dts := map (cell i) (rows bars)) in *.
  destruct (searchsorted_spec dts key SLeft Hasc) as (Hp & Hl & Hr).
  set (pos := searchsorted dts key SLeft) in *.
  assert (Hlen : length dts = length (rows bars)) by apply length_map.
  assert (Hnone : ~ (exists r, r ∈ rows bars /\ cell i r = key) ->
          (if ((length (rows bars) <=? pos)%nat || negb (nth pos dts 0 =? key))%bool
           then Ok None
           else Ok (Some (mk_record (dtype_names bars) (nth pos (rows bars) []))))
          = Ok None).
  { intros Hno.
    destruct (length (rows bars) <=? pos)%nat eqn:Hge; [reflexivity|].
    destruct (nth pos dts 0 =? key) eqn:Heq; [|reflexivity].
    exfalso. apply Hno. apply Nat.leb_gt in Hge. apply Z.eqb_eq in Heq.
    exists (nth pos (rows bars) []). split.
    - apply list_elem_of_In, nth_In. lia.
    - rewrite <- Heq. subst dts. by rewrite nth_column. }
  split; [|split].
  - intros (r & Hin & Hkey).
    apply list_elem_of_lookup in Hin as [j Hj].
    assert (Hdj : dts !! j = Some key).
    { subst dts. rewrite list_lookup_fmap, Hj. simpl. by rewrite Hkey. }
    assert (Hpj : (pos <= j)%nat).
    { destruct (decide (pos <= j)%nat) as [|Hn]; [done|]. exfalso.
      assert (Ht : take pos dts !! j = Some key).
      { rewrite lookup_take_lt by lia. done. }
      rewrite Forall_forall in Hl.
      apply list_elem_of_lookup_2, list_elem_of_In, Hl in Ht.
      simpl in Ht. apply Z.ltb_lt in Ht. lia. }
    pose proof (lookup_lt_Some _ _ _ Hdj) as Hjlt.
    assert (Hge : key <= nth pos dts 0).
    { assert (Hd : drop pos dts !! 0%nat = Some (nth pos dts 0)).
      { rewrite lookup_drop, Nat.add_0_r. apply lookup_nth. lia. }
      rewrite Forall_forall in Hr.
      apply list_elem_of_lookup_2, list_elem_of_In, Hr in Hd.
      simpl in Hd. apply Z.ltb_ge in Hd. done. }
    assert (Hle : nth pos dts 0 <= key).
    { rewrite <- (nth_lookup_Some _ _ 0 _ Hdj).
      apply ascendingb_nth; [done|lia]. }
    assert (Hposlt : (length (rows bars) <=? pos)%nat = false)
      by (apply Nat.leb_gt; lia).
    assert (Heq : (nth pos dts 0 =? key) = true) by (apply Z.eqb_eq; lia).
    rewrite Hposlt, Heq. simpl.
    exists (nth pos (rows bars) []). split; [reflexivity|]. split.
    + apply list_elem_of_In, nth_In. lia.
    + apply Z.eqb_eq in Heq. rewrite <- Heq. subst dts. by rewrite nth_column.
  - exact Hnone.
  - intros Hold. apply Hnone. intros (r & Hin & Hkey).
    rewrite Forall_forall in Hold. apply list_elem_of_In, Hold in Hin. lia.
Qed.

Lemma get_bar_exact_date_witness :
  let key := convert_date_to_int (mk_date 2017 1 4) in
  ((exists r, r ∈ rows Demo.bars /\ cell 0 r = key) ->
     exists r, get_bar Demo.source Demo.stock (mk_date 2017 1 4) "1d"
                 = Ok (Some (mk_record Demo.names7 r)) /\
               r ∈ rows Demo.bars /\ cell 0 r = key) /\
  (~ (exists r, r ∈ rows Demo.bars /\ cell 0 r = key) ->
     get_bar Demo.source Demo.stock (mk_date 2017 1 4) "1d" = Ok None) /\
  (Forall (fun r => cell 0 r < key) (rows Demo.bars) ->
     get_bar Demo.source Demo.stock (mk_date 2017 1 4) "1d" = Ok None).
Proof.
  apply (get_bar_exact_date Demo.source Demo.stock (mk_date 2017 1 4)
           (Some Demo.bars) 0 eq_refl).
  intros bars [= <-]. split; reflexivity.
Defined.

(** ** The history window *)

Lemma slice_window {A} (l : list A) (bar_count : Z) (p : nat) :
  (p <= length l)%nat -> 0 < bar_count ->
  let i := Z.of_nat p in
  slice (if bar_count <=? i then i - bar_count else 0) i l
  = take (p - (p - Z.to_nat bar_count)) (drop (p - Z.to_nat bar_count) l).
Proof.
  intros Hp Hn i. unfold slice, clamp.
  destruct (bar_count <=? i) eqn:Hle.
  - apply Z.leb_le in Hle.
    destruct (i - bar_count <? 0) eqn:H1; [apply Z.ltb_lt in H1; lia|].
    destruct (i <? 0) eqn:H2; [apply Z.ltb_lt in H2; lia|].
    f_equal; [|f_equal]; lia.
  - apply Z.leb_gt in Hle.
    destruct (i <? 0) eqn:H2; [apply Z.ltb_lt in H2; lia|].
    simpl. f_equal; [|f_equal]; lia.
Qed.

Lemma field_indexes_Some (fs names : list string) :
  (forall f, f ∈ fs -> f ∈ names) ->
  exists ixs, field_indexes fs names = Some ixs /\ length ixs = length fs.
Proof.
  induction fs as [|f fs IH]; intros Hall; [by exists []|].
  destruct (field_index_Some f names) as (i & Hi & _).
  { apply Hall. by left. }
  destruct IH as (ixs & Hixs & Hlen).
  { intros g Hg. apply Hall. by right. }
  exists (i :: ixs). simpl. rewrite Hi, Hixs. split; [done|]. simpl. lia.
Qed.

Lemma has_dup_NoDup (fs : list string) : NoDup fs -> has_dup fs = false.
Proof.
  induction 1 as [|f fs Hnotin Hnd IH]; [done|].
  simpl. rewrite IH, orb_false_r. by apply mem_false.
Qed.

Lemma NoDup_has_dup (fs : list string) : has_dup fs = false -> NoDup fs.
Proof.
  induction fs as [|f fs IH]; [constructor|].
  simpl. intros H. apply orb_false_elim in H as [Hm Hd].
  constructor; [by apply mem_false | by apply IH].
Qed.

Lemma forallb_mem_elem_of (fs names : list string) :
  forallb (fun f => mem f names) fs = true -> forall f, f ∈ fs -> f ∈ names.
Proof.
  rewrite forallb_forall. intros H f Hf.
  apply mem_elem_of, H. by apply list_elem_of_In.
Qed.

(** Indexing by a field set succeeds when every requested name is a field
    of the array and no name is requested twice; it keeps one result per
    record (none for the empty list of names) and writes nothing. *)
Lemma getitem_defined (a : recarray) (fields : pyfields) (h : heap) :
  (forall fs, requested fields h = Some fs ->
     (forall f, f ∈ fs -> f ∈ dtype_names a) /\ NoDup fs) ->
  exists res, getitem a fields h = (Ok res, h) /\
    (result_length res <= length (rows a))%nat /\
    (requested fields h <> Some [] -> result_length res = length (rows a)) /\
    (fields = FNone -> res = Records a).
Proof.
  intros Hreq. destruct fields as [|s|l]; simpl.
  - exists (Records a). repeat split; auto.
  - destruct (Hreq [s] eq_refl) as [Hin _].
    destruct (field_index_Some s (dtype_names a)) as (i & Hi & _).
    { apply Hin. by apply list_elem_of_singleton. }
    unfold column. rewrite Hi. eexists. split; [reflexivity|]. simpl.
    rewrite length_map. repeat split; auto. discriminate.
  - destruct (Hreq (deref h l) eq_refl) as [Hin Hnd].
    unfold bind, read. unfold getitem_names.
    destruct (deref h l) as [|f fs] eqn:Hfs.
    + eexists. split; [reflexivity|]. simpl. repeat split; [lia| |discriminate].
      intros Hne. by destruct Hne.
    + destruct (field_indexes_Some (f :: fs) (dtype_names a) Hin)
        as (ixs & -> & _).
      rewrite (has_dup_NoDup _ Hnd).
      eexists. split; [reflexivity|]. simpl. rewrite length_map.
      repeat split; auto. discriminate.
Qed.

(** The window of a series: the facts about the bisection boundary [i]
    and the slice [lo, i), with [lo = max(0, i - bar_count)]. *)
Lemma window_at (rs : list (list Z)) (k : nat) (key bar_count : Z) :
  ascendingb (map (cell k) rs) = true ->
  0 < bar_count ->
  let i := searchsorted (map (cell k) rs) key SRight in
  let lo := Z.to_nat (Z.max 0 (Z.of_nat i - bar_count)) in
  let window := take (i - lo) (drop lo rs) in
  slice (if bar_count <=? Z.of_nat i then Z.of_nat i - bar_count else 0)
    (Z.of_nat i) rs = window /\
  (i <= length rs)%nat /\
  (forall j, (j < i - lo)%nat -> window !! j = rs !! (lo + j)%nat) /\
  length window = (i - lo)%nat /\
  Z.of_nat (length window) <= bar_count /\
  Forall (fun r => cell k r <= key) window /\
  (Z.of_nat i < bar_count -> window = take i rs) /\
  Forall (fun r => cell k r <= key) (take i rs) /\
  Forall (fun r => key < cell k r) (drop i rs).
Proof.
  intros Hasc Hn i lo window.
  destruct (searchsorted_spec (map (cell k) rs) key SRight Hasc)
    as (Hp & Hl & Hr).
  fold i in Hp, Hl, Hr. rewrite length_map in Hp.
  assert (Hlo : lo = (i - Z.to_nat bar_count)%nat) by (subst lo; lia).
  assert (Hlen : length window = (i - lo)%nat).
  { subst window. rewrite length_take, length_drop. lia. }
  assert (Hlook : forall j, (j < i - lo)%nat -> window !! j = rs !! (lo + j)%nat).
  { intros j Hj. subst window. rewrite lookup_take_lt by done.
    apply lookup_drop. }
  assert (Hbefore : Forall (fun r => cell k r <= key) (take i rs)).
  { rewrite <- fmap_take in Hl. apply Forall_fmap in Hl.
    eapply list.Forall_impl; [exact Hl|]. intros r Hr'. simpl in Hr'.
    by apply Z.leb_le in Hr'. }
  split.
  { rewrite (slice_window _ _ i Hp Hn). by rewrite <- Hlo. }
  split; [exact Hp|]. split; [exact Hlook|]. split; [exact Hlen|].
  split; [lia|]. split; [|split; [|split; [exact Hbefore|]]].
  - apply Forall_lookup. intros j r Hj.
    assert (Hjlt : (j < i - lo)%nat).
    { apply lookup_lt_Some in Hj. lia. }
    rewrite (Hlook j Hjlt) in Hj.
    rewrite list.Forall_forall in Hbefore. apply Hbefore.
    apply (list_elem_of_lookup_2 _ (lo + j)%nat).
    rewrite lookup_take_lt by lia. done.
  - intros Hfew. subst window. replace lo with 0%nat by lia.
    rewrite drop_0. f_equal. lia.
  - rewrite <- fmap_drop in Hr. apply Forall_fmap in Hr.
    eapply list.Forall_impl; [exact Hr|]. intros r Hr'. simpl in Hr'.
    by apply Z.leb_gt in Hr'.
Qed.

(** C1: let the selected series be present, the field set valid, and let
    [bars'] be the series that reaches the window step (the selected one
    for daily bars, its resampling otherwise), ascending by date key.
    For [bar_count > 0], with [i] the right-side bisection boundary of the
    date key of [dt] (the records before [i] are dated at or before [dt],
    those from [i] on after it) and [lo = max(0, i - bar_count)],
    [history_bars] returns the records at the positions [lo, i) of
    [bars'], indexed by the field set: at most [bar_count] of them, each
    dated at or before [dt]; when fewer than [bar_count] records precede
    [i] these are all the records from position 0 to [i], nothing
    added. *)
Theorem history_bars_window
    (self : BaseDataSource) (ins : instrument) (bar_count : Z)
    (frequency : string) (fields : pyfields) (dt : date)
    (skip_suspended include_now : bool) (h h' : heap)
    (bars bars' : recarray) (k : nat) :
  mem frequency ["1d"; "W"; "M"] = true ->
  selected_series self ins skip_suspended = Ok (Some bars) ->
  _are_fields_valid fields (dtype_names bars) h = (Ok true, h) ->
  resample_step frequency bars fields h = (Ok bars', h') ->
  (forall fs, requested fields h' = Some fs ->
     (forall f, f ∈ fs -> f ∈ dtype_names bars') /\ NoDup fs) ->
  field_index "datetime" (dtype_names bars') = Some k ->
  ascendingb (map (cell k) (rows bars')) = true ->
  0 < bar_count ->
  let key := convert_date_to_int dt in
  let i := searchsorted (map (cell k) (rows bars')) key SRight in
  let lo := Z.to_nat (Z.max 0 (Z.of_nat i - bar_count)) in
  let window := take (i - lo) (drop lo (rows bars')) in
  exists res,
    history_bars self ins bar_count frequency fields dt
      skip_suspended include_now h = (Ok (Some res), h') /\
    getitem (mk_recarray (dtype_names bars') window) fields h' = (Ok res, h') /\
    (fields = FNone -> res = Records (mk_recarray (dtype_names bars') window)) /\
    (result_length res <= length window)%nat /\
    (i <= length (rows bars'))%nat /\
    (forall j, (j < i - lo)%nat -> window !! j = rows bars' !! (lo + j)%nat) /\
    length window = (i - lo)%nat /\
    Z.of_nat (length window) <= bar_count /\
    Forall (fun r => cell k r <= key) window /\
    (Z.of_nat i < bar_count -> window = take i (rows bars')) /\
    Forall (fun r => cell k r <= key) (take i (rows bars')) /\
    Forall (fun r => key < cell k r) (drop i (rows bars')).
Proof.
  intros Hf Hsel Hvalid Hstep Hidx Hk Hasc Hn key i lo window.
  destruct (window_at (rows bars') k key bar_count Hasc Hn)
    as (Hslice & Hfacts).
  fold i lo window in Hslice, Hfacts.
  destruct (getitem_defined (mk_recarray (dtype_names bars') window) fields h')
    as (res & Hget & Hrl & _ & Hnone); [exact Hidx|].
  exists res. split; [|split; [exact Hget|]].
  - rewrite history_bars_supported by done.
    rewrite Hsel, Hvalid, Hstep. unfold column. rewrite Hk. cbv zeta.
    fold key. fold i. rewrite Hslice. by rewrite Hget.
  - split; [exact Hnone|]. split; [exact Hrl|]. exact Hfacts.
Qed.

(** For daily bars the series that reaches the window step is the
    selected one, and a valid set of distinct names can be projected: the
    query returns. *)
Lemma history_bars_daily_window
    (self : BaseDataSource) (ins : instrument) (bar_count : Z)
    (fields : pyfields) (dt : date) (skip_suspended include_now : bool)
    (h : heap) (bars : recarray) (k : nat) :
  selected_series self ins skip_suspended = Ok (Some bars) ->
  (forall fs, requested fields h = Some fs ->
     (forall f, f ∈ fs -> f ∈ dtype_names bars) /\ NoDup fs) ->
  field_index "datetime" (dtype_names bars) = Some k ->
  ascendingb (map (cell k) (rows bars)) = true ->
  0 < bar_count ->
  let key := convert_date_to_int dt in
  let i := searchsorted (map (cell k) (rows bars)) key SRight in
  let lo := Z.to_nat (Z.max 0 (Z.of_nat i - bar_count)) in
  let window := take (i - lo) (drop lo (rows bars)) in
  exists res,
    history_bars self ins bar_count "1d" fields dt
      skip_suspended include_now h = (Ok (Some res), h) /\
    getitem (mk_recarray (dtype_names bars) window) fields h = (Ok res, h) /\
    (result_length res <= length window)%nat /\
    Z.of_nat (length window) <= bar_count /\
    Forall (fun r => cell k r <= key) window.
Proof.
  intros Hsel Hreq Hk Hasc Hn key i lo window.
  destruct (window_at (rows bars) k key bar_count Hasc Hn)
    as (Hslice & _ & _ & _ & Hlen & Hdate & _).
  fold i lo window in Hslice, Hlen, Hdate.
  destruct (getitem_defined (mk_recarray (dtype_names bars) window) fields h)
    as (res & Hget & Hrl & _); [exact Hreq|].
  assert (Hvalid : _are_fields_valid fields (dtype_names bars) h = (Ok true, h)).
  { apply _are_fields_valid_true. intros fs Hfs. by apply Hreq. }
  exists res. split; [|by auto].
  rewrite history_bars_supported by reflexivity.
  rewrite Hsel, Hvalid.
  change (resample_step "1d" bars fields h) with (@Ok recarray bars, h).
  unfold column. rewrite Hk.
  cbv zeta. fold key. fold i. rewrite Hslice. by rewrite Hget.
Qed.

Lemma history_bars_window_witness :
  exists res,
    history_bars Demo.source Demo.stock 3 "1d" (FList 0%nat)
      (mk_date 2017 1 10) false false Demo.caller_heap
      = (Ok (Some res), Demo.caller_heap) /\
    res = Records (mk_recarray ["close"; "volume"]
                     [ [9; 300]; [15; 400]; [16; 500] ]).
Proof.
  destruct (history_bars_window Demo.source Demo.stock 3 "1d" (FList 0%nat)
              (mk_date 2017 1 10) false false Demo.caller_heap
              Demo.caller_heap Demo.bars Demo.bars 0
              eq_refl eq_refl eq_refl eq_refl)
    as (res & Hres & Hget & _).
  - intros fs [= <-]. split.
    + apply forallb_mem_elem_of. reflexivity.
    + apply NoDup_has_dup. reflexivity.
  - reflexivity.
  - reflexivity.
  - lia.
  - exists res. split; [exact Hres|].
    vm_compute in Hget. congruence.
Defined.

(** ** The field list under resampling *)

Lemma deref_insert (h : heap) (l : loc) (v : list string) :
  deref (<[l := v]> h) l = v.
Proof. unfold deref. by rewrite lookup_insert_eq. Qed.

Lemma deref_lookup (h : heap) (l : loc) (v : list string) :
  h !! l = Some v -> deref h l = v.
Proof. unfold deref. by intros ->. Qed.

(** The field normalisation of [_resample_k_bars] on a list argument: the
    list object itself receives ["datetime"]. *)
Lemma _resample_k_bars_deref bars l frequency h :
  _resample_k_bars bars (FList l) frequency h =
    if mem "datetime" (deref h l)
    then (resample_frame bars (deref h l) frequency, h)
    else (resample_frame bars (deref h l ++ ["datetime"]) frequency,
          <[l := deref h l ++ ["datetime"]]> h).
Proof.
  unfold _resample_k_bars, bind, read, lift, ret, append.
  destruct (mem "datetime" (deref h l)) eqn:Hm.
  - reflexivity.
  - rewrite deref_insert. reflexivity.
Qed.

Lemma _resample_k_bars_list bars l frequency h fs :
  h !! l = Some fs ->
  _resample_k_bars bars (FList l) frequency h =
    if mem "datetime" fs
    then (resample_frame bars fs frequency, h)
    else (resample_frame bars (fs ++ ["datetime"]) frequency,
          <[l := fs ++ ["datetime"]]> h).
Proof.
  intros Hl. rewrite _resample_k_bars_deref.
  by rewrite (deref_lookup _ _ _ Hl).
Qed.

(** On a single name the normalised list is a new object. *)
Lemma _resample_k_bars_str bars s frequency h :
  _resample_k_bars bars (FStr s) frequency h =
    if mem "datetime" [s]
    then (resample_frame bars [s] frequency, <[fresh_loc h := [s]]> h)
    else (resample_frame bars [s; "datetime"] frequency,
          <[fresh_loc h := [s; "datetime"]]> h).
Proof.
  unfold _resample_k_bars, bind, read, lift, ret, append, alloc.
  rewrite deref_insert.
  destruct (mem "datetime" [s]) eqn:Hm.
  - rewrite ?deref_insert. reflexivity.
  - rewrite ?deref_insert. simpl. rewrite insert_insert_eq. reflexivity.
Qed.

Lemma fresh_loc_fresh (h : heap) : h !! fresh_loc h = None.
Proof. apply not_elem_of_dom. unfold fresh_loc. apply is_fresh. Qed.

Lemma getitem_heap a fields h : snd (getitem a fields h) = h.
Proof.
  destruct fields as [|s|l]; simpl; [done| |].
  - by destruct (column s a).
  - unfold bind, read. by destruct (getitem_names a (deref h l)).
Qed.

(** What [history_bars] leaves in the heap is what the resampling step
    leaves. *)
Lemma history_bars_heap self ins bar_count frequency fields dt skip inc h bars :
  mem frequency ["1d"; "W"; "M"] = true ->
  selected_series self ins skip = Ok (Some bars) ->
  _are_fields_valid fields (dtype_names bars) h = (Ok true, h) ->
  snd (history_bars self ins bar_count frequency fields dt skip inc h)
  = snd (resample_step frequency bars fields h).
Proof.
  intros Hf Hsel Hv. rewrite history_bars_supported by done.
  rewrite Hsel, Hv.
  destruct (resample_step frequency bars fields h) as [[bars'|e] h2]; [|done].
  destruct (column "datetime" bars'); [|done]. cbv zeta.
  match goal with |- context [getitem ?a fields h2] =>
    pose proof (getitem_heap a fields h2) as Hg;
    destruct (getitem a fields h2) as [[r|e] h3] end; simpl in *; congruence.
Qed.

Lemma resample_step_daily bars fields h :
  resample_step "1d" bars fields h = (Ok bars, h).
Proof. reflexivity. Qed.

Lemma resample_step_resampled frequency bars fields h :
  frequency = "W" \/ frequency = "M" ->
  resample_step frequency bars fields h =
  _resample_k_bars bars fields (if String.eqb frequency "W" then "W-Fri" else "M") h.
Proof.
  intros [-> | ->]; unfold resample_step; simpl; unfold bind, ret.
  - by destruct (_resample_k_bars bars fields "W-Fri" h) as [[b|e] h1].
  - reflexivity.
Qed.

(** With daily bars no list object changes, whatever the call returns. *)
Lemma history_bars_daily_heap self ins bar_count fields dt skip inc h :
  snd (history_bars self ins bar_count "1d" fields dt skip inc h) = h.
Proof.
  rewrite history_bars_supported by reflexivity.
  destruct (selected_series self ins skip) as [[bars|]|e]; try done.
  destruct (_are_fields_valid_pure fields (dtype_names bars) h) as [[|] ->];
    [|done].
  rewrite resample_step_daily.
  destruct (column "datetime" bars); [|done]. cbv zeta.
  match goal with |- context [getitem ?a fields h] =>
    pose proof (getitem_heap a fields h) as Hg;
    destruct (getitem a fields h) as [[r|e] h3] end; simpl in *; congruence.
Qed.

(** With a single field name the list objects of the caller keep their
    content, whatever the frequency and whatever the call returns. *)
Lemma history_bars_str_heap self ins bar_count frequency s dt skip inc h l :
  is_Some (h !! l) ->
  snd (history_bars self ins bar_count frequency (FStr s) dt skip inc h) !! l
  = h !! l.
Proof.
  intros Hl.
  destruct (mem frequency ["1d"; "W"; "M"]) eqn:Hf.
  2:{ unfold history_bars. by rewrite Hf. }
  rewrite history_bars_supported by done.
  destruct (selected_series self ins skip) as [[bars|]|e]; try done.
  destruct (_are_fields_valid_pure (FStr s) (dtype_names bars) h) as [[|] ->];
    [|done].
  assert (Hstep : snd (resample_step frequency bars (FStr s) h) !! l = h !! l).
  { apply supported_frequency in Hf as [-> | Hf].
    - by rewrite resample_step_daily.
    - rewrite (resample_step_resampled _ _ _ _ Hf), _resample_k_bars_str.
      assert (Hne : fresh_loc h <> l).
      { intros <-. rewrite fresh_loc_fresh in Hl. by destruct Hl. }
      destruct (mem "datetime" [s]); simpl; by rewrite lookup_insert_ne. }
  destruct (resample_step frequency bars (FStr s) h) as [[bars'|e] h2]; [|done].
  destruct (column "datetime" bars'); [|done]. cbv zeta.
  match goal with |- context [getitem ?a (FStr s) h2] =>
    pose proof (getitem_heap a (FStr s) h2) as Hg;
    destruct (getitem a (FStr s) h2) as [[r|e] h3] end; simpl in *; congruence.
Qed.

(** C10: a weekly or monthly [history_bars] that reaches the resampler
    (the selected series is present and every name of the list is a field
    of its schema) on a field list without ["datetime"] appends
    ["datetime"] to the caller's list object, and changes nothing else,
    whether or not the call then succeeds.  With daily bars no list
    object changes, and with a single field name the caller's list
    objects keep their content. *)
Theorem history_bars_list_argument
    (self : BaseDataSource) (ins : instrument) (bar_count : Z)
    (frequency : string) (dt : date) (skip_suspended include_now : bool)
    (h : heap) (bars : recarray) (l : loc) (fs : list string) :
  selected_series self ins skip_suspended = Ok (Some bars) ->
  frequency = "W" \/ frequency = "M" ->
  h !! l = Some fs ->
  (forall f, f ∈ fs -> f ∈ dtype_names bars) ->
  "datetime" ∉ fs ->
  snd (history_bars self ins bar_count frequency (FList l) dt
         skip_suspended include_now h) = <[l := fs ++ ["datetime"]]> h
  /\ (forall fields,
        snd (history_bars self ins bar_count "1d" fields dt
               skip_suspended include_now h) = h)
  /\ (forall frequency' s l', is_Some (h !! l') ->
        snd (history_bars self ins bar_count frequency' (FStr s) dt
               skip_suspended include_now h) !! l' = h !! l').
Proof.
  intros Hsel Hf Hl Hvalid Hnodt. split; [|split].
  - rewrite (history_bars_heap _ _ _ _ _ _ _ _ _ bars);
      [|apply supported_frequency; tauto|done|].
    + rewrite (resample_step_resampled _ _ _ _ Hf).
      rewrite (_resample_k_bars_list _ _ _ _ fs Hl).
      apply mem_false in Hnodt. by rewrite Hnodt.
    + apply _are_fields_valid_true. simpl. intros fs' [= <-].
      by rewrite (deref_lookup _ _ _ Hl).
  - intros fields. apply history_bars_daily_heap.
  - intros frequency' s l' Hl'. by apply history_bars_str_heap.
Qed.

Lemma history_bars_list_argument_witness :
  snd (history_bars Demo.source Demo.stock 3 "W" (FList 0%nat)
         (mk_date 2017 1 31) true false Demo.caller_heap)
  = <[0%nat := ["close"; "volume"; "datetime"]]> Demo.caller_heap.
Proof.
  apply (history_bars_list_argument Demo.source Demo.stock 3 "W"
           (mk_date 2017 1 31) true false Demo.caller_heap
           (mk_recarray Demo.names7
              (List.filter (fun r => 0 <? cell 5 r) (rows Demo.bars)))
           0%nat ["close"; "volume"] eq_refl (or_introl eq_refl) eq_refl).
  - apply forallb_mem_elem_of. reflexivity.
  - apply mem_false. reflexivity.
Defined.

(** The hypotheses on the series and on the names are needed: when the
    instrument has no series the call returns before the resampler runs,
    and the list is as the caller passed it. *)
Lemma absent_series_leaves_list :
  let h' := snd (history_bars Demo.source Demo.unlisted 3 "W" (FList 0%nat)
                   (mk_date 2017 1 31) true false Demo.caller_heap) in
  Demo.caller_heap !! 0%nat = Some ["close"; "volume"] /\
  ("datetime" ∉ ["close"; "volume"]) /\
  h' !! 0%nat = Some ["close"; "volume"] /\
  (h' !! 0%nat) <> Some ["close"; "volume"; "datetime"].
Proof.
  cbv zeta. split; [reflexivity|]. split; [by apply mem_false|].
  split; [reflexivity|]. vm_compute. discriminate.
Qed.

(** ** The calendar is ordered like the date keys *)

Lemma valid_date_bounds d :
  valid_date d = true ->
  1 <= year d <= 9999 /\ 1 <= month d <= 12 /\
  1 <= day d <= days_in_month (year d) (month d).
Proof.
  unfold valid_date. rewrite !andb_true_iff, !Z.leb_le. tauto.
Qed.

Lemma days_before_year_succ y :
  days_before_year (y + 1)
  = days_before_year y + 365 + (if is_leap y then 1 else 0).
Proof.
  unfold days_before_year, is_leap. cbv zeta.
  replace (y + 1 - 1) with y by lia.
  destruct (Z.eqb_spec (y mod 4) 0), (Z.eqb_spec (y mod 100) 0),
    (Z.eqb_spec (y mod 400) 0); simpl; Z.div_mod_to_equations; lia.
Qed.

Lemma days_before_year_mono y1 y2 :
  y1 <= y2 -> days_before_year y1 <= days_before_year y2.
Proof.
  unfold days_before_year. cbv zeta. intros. Z.div_mod_to_equations. lia.
Qed.

Ltac month_cases m :=
  let H := fresh in
  assert (H : m = 1 \/ m = 2 \/ m = 3 \/ m = 4 \/ m = 5 \/ m = 6 \/ m = 7 \/
              m = 8 \/ m = 9 \/ m = 10 \/ m = 11 \/ m = 12) by lia;
  destruct H as [->|[->|[->|[->|[->|[->|[->|[->|[->|[->|[->| ->]]]]]]]]]]].

Lemma days_before_month_nonneg y m : 0 <= days_before_month y m.
Proof.
  unfold days_before_month. cbv zeta.
  repeat match goal with |- context [if ?b then _ else _] => destruct b end; lia.
Qed.

(** A day of a month comes before the first day of every later month. *)
Lemma days_before_month_later y m1 m2 d :
  1 <= m1 -> m1 < m2 -> m2 <= 12 -> d <= days_in_month y m1 ->
  days_before_month y m1 + d <= days_before_month y m2.
Proof.
  intros H1 H12 H2 Hd.
  month_cases m1; month_cases m2; try lia;
    unfold days_before_month, days_in_month in *; simpl in *;
    destruct (is_leap y); lia.
Qed.

(** and within its year. *)
Lemma days_before_month_in_year y m d :
  1 <= m <= 12 -> d <= days_in_month y m ->
  days_before_month y m + d <= 365 + (if is_leap y then 1 else 0).
Proof.
  intros Hm Hd.
  month_cases m; unfold days_before_month, days_in_month in *; simpl in *;
    destruct (is_leap y); lia.
Qed.

Lemma date_of_int_order n1 n2 :
  let d1 := date_of_int n1 in
  let d2 := date_of_int n2 in
  0 <= month d1 < 100 -> 0 <= month d2 < 100 -> n1 <= n2 ->
  year d1 < year d2 \/
  (year d1 = year d2 /\ month d1 < month d2) \/
  (year d1 = year d2 /\ month d1 = month d2 /\ day d1 <= day d2).
Proof.
  unfold date_of_int. simpl. intros. Z.div_mod_to_equations. lia.
Qed.

Lemma toordinal_mono n1 n2 :
  valid_date (date_of_int n1) = true -> valid_date (date_of_int n2) = true ->
  n1 <= n2 -> toordinal (date_of_int n1) <= toordinal (date_of_int n2).
Proof.
  intros V1 V2 Hle.
  apply valid_date_bounds in V1 as (Hy1 & Hm1 & Hd1).
  apply valid_date_bounds in V2 as (Hy2 & Hm2 & Hd2).
  assert (H1 : 0 <= month (date_of_int n1) < 100) by lia.
  assert (H2 : 0 <= month (date_of_int n2) < 100) by lia.
  destruct (date_of_int_order n1 n2 H1 H2 Hle)
    as [Hy | [[Hy Hm] | (Hy & Hm & Hd)]].
  all: unfold toordinal.
  - pose proof (days_before_month_in_year _ _ _ Hm1 (proj2 Hd1)).
    pose proof (days_before_year_succ (year (date_of_int n1))).
    pose proof (days_before_year_mono (year (date_of_int n1) + 1)
                  (year (date_of_int n2))).
    pose proof (days_before_month_nonneg (year (date_of_int n2))
                  (month (date_of_int n2))).
    lia.
  - rewrite Hy in *.
    pose proof (days_before_month_later (year (date_of_int n2))
                  (month (date_of_int n1)) (month (date_of_int n2))
                  (day (date_of_int n1))).
    lia.
  - rewrite Hy, Hm. lia.
Qed.

Lemma bucket_mono o n1 n2 :
  valid_date (date_of_int n1) = true -> valid_date (date_of_int n2) = true ->
  n1 <= n2 -> bucket o (date_of_int n1) <= bucket o (date_of_int n2).
Proof.
  intros V1 V2 Hle. destruct o; cbn [bucket].
  - pose proof (toordinal_mono n1 n2 V1 V2 Hle).
    apply Z.div_le_mono; lia.
  - apply valid_date_bounds in V1 as (Hy1 & Hm1 & Hd1).
    apply valid_date_bounds in V2 as (Hy2 & Hm2 & Hd2).
    assert (H1 : 0 <= month (date_of_int n1) < 100) by lia.
    assert (H2 : 0 <= month (date_of_int n2) < 100) by lia.
    pose proof (date_of_int_order n1 n2 H1 H2 Hle) as Hord. lia.
Qed.

(** The label of a weekly bin is a Friday, at most six days ahead, and
    determines the bin. *)
Lemma week_label_friday d :
  let f := week_label d in
  (f + 6) mod 7 = 4 /\ toordinal d <= f <= toordinal d + 6 /\
  f = 7 * bucket W_FRI d + 5.
Proof.
  unfold week_label, weekday, bucket. cbv zeta. Z.div_mod_to_equations. lia.
Qed.

(** ** Resampling: the frame pandas builds *)

Lemma decode_all_valid dts :
  Forall (fun n => valid_key n = true) dts ->
  decode_all dts = Ok (map date_of_int dts).
Proof.
  induction 1 as [|n dts Hn _ IH]; [done|].
  simpl. unfold convert_int_to_datetime. cbv zeta.
  unfold valid_key in Hn. by rewrite Hn, IH.
Qed.

Lemma ascendingb_map (f : Z -> Z) (P : Z -> Prop) l :
  (forall x y, P x -> P y -> x <= y -> f x <= f y) ->
  Forall P l -> ascendingb l = true -> ascendingb (map f l) = true.
Proof.
  intros Hf. induction l as [|x [|y l] IH]; intros HP Ha; try reflexivity.
  simpl in Ha. apply andb_prop in Ha as [Hxy Ha]. apply Z.leb_le in Hxy.
  inversion HP as [|? ? Hx HP']; subst. inversion HP' as [|? ? Hy _]; subst.
  change (((f x <=? f y) && ascendingb (map f (y :: l)))%bool = true).
  rewrite (IH HP' Ha), andb_true_r. apply Z.leb_le. auto.
Qed.

(** The stable sort leaves an index that is already in order as it is. *)
Lemma sort_stamped_sorted (l : list (date * list Z)) :
  ascendingb (map (fun x => toordinal (fst x)) l) = true ->
  sort_stamped l = l.
Proof.
  induction l as [|x l IH]; intros Ha; [done|].
  simpl. destruct (ascendingb_cons _ _ Ha) as [Ha' Hx].
  rewrite (IH Ha'). destruct l as [|y l]; [done|].
  simpl. inversion Hx as [|? ? Hxy _]; subst.
  apply Z.leb_le in Hxy. by rewrite Hxy.
Qed.

Lemma zip_stamps (f : list Z -> date) (rs : list (list Z)) :
  zip (map f rs) rs = map (fun r => (f r, r)) rs.
Proof. induction rs as [|r rs IH]; [done|]. simpl. by rewrite IH. Qed.

Lemma bin_rows_stamps o (f : list Z -> date) (rs : list (list Z)) k :
  bin_rows o (map (fun r => (f r, r)) rs) k
  = List.filter (fun r => bucket o (f r) =? k) rs.
Proof.
  unfold bin_rows. induction rs as [|r rs IH]; [done|].
  simpl. destruct (bucket o (f r) =? k); simpl; by rewrite IH.
Qed.

Lemma last_map {A B} (f : A -> B) (l : list A) :
  list.last (map f l) = option_map f (list.last l).
Proof.
  induction l as [|x [|y l] IH]; done.
Qed.

Lemma bins_equation o (stamped : list (date * list Z)) :
  bins o stamped =
  match stamped, list.last stamped with
  | x :: _, Some y =>
      seqZ (bucket o (fst x)) (bucket o (fst y) - bucket o (fst x) + 1)
  | _, _ => []
  end.
Proof. reflexivity. Qed.

Lemma bins_cons o (x : date * list Z) (l : list (date * list Z)) :
  bins o (x :: l)
  = seqZ (bucket o (fst x))
      (bucket o (fst (default x (list.last l))) - bucket o (fst x) + 1).
Proof. rewrite bins_equation, last_cons. by destruct (list.last l). Qed.

Lemma aggregate_field_defined bars groups f :
  f ∈ dtype_names bars -> is_Some (handler f) ->
  aggregate_field bars groups f = Ok (map (agg_cell bars f) groups).
Proof.
  intros Hin [m Hm]. unfold aggregate_field, agg_cell, column_of.
  destruct (field_index_Some _ _ Hin) as (i & -> & _). by rewrite Hm.
Qed.

Lemma zip_with_map_same {A B C D} (f : B -> C -> D) (g : A -> B) (h : A -> C)
    (l : list A) :
  zip_with f (map g l) (map h l) = map (fun x => f (g x) (h x)) l.
Proof. induction l as [|x l IH]; [done|]. simpl. by rewrite IH. Qed.

(** The loop over the fields fills one column per field, in order. *)
Lemma aggregate_fields_defined bars groups : forall fds done,
  NoDup (done ++ fds) ->
  (forall f, f ∈ fds -> f ∈ dtype_names bars /\ is_Some (handler f)) ->
  aggregate_fields bars groups fds
    (mk_frame done (map (fun g => map (fun f => agg_cell bars f g) done) groups))
  = Ok (mk_frame (done ++ fds)
          (map (fun g => map (fun f => agg_cell bars f g) (done ++ fds)) groups)).
Proof.
  induction fds as [|f fds IH]; intros done Hnd Hall.
  - simpl. by rewrite app_nil_r.
  - destruct (Hall f) as [Hin Hh]; [by left|].
    simpl. rewrite (aggregate_field_defined _ _ _ Hin Hh).
    assert (Hnot : f ∉ done).
    { apply list.NoDup_app in Hnd as (_ & Hdis & _). intros Hd.
      apply (Hdis f Hd). by left. }
    unfold set_column. simpl. rewrite (field_index_None _ _ Hnot).
    rewrite zip_with_map_same.
    replace (done ++ f :: fds) with ((done ++ [f]) ++ fds)
      by (by rewrite <- app_assoc).
    rewrite <- IH.
    + f_equal. f_equal. apply map_ext. intros g. by rewrite map_app.
    + by rewrite <- app_assoc.
    + intros f' Hf'. apply Hall. by right.
Qed.

Lemma aggregate_nonempty m col : col <> [] -> is_Some (aggregate m col).
Proof.
  intros Hne. destruct col as [|v vs]; [done|].
  destruct m; simpl; try by eexists.
  apply last_is_Some. done.
Qed.

Lemma agg_cell_nonempty bars f g :
  f ∈ dtype_names bars -> is_Some (handler f) -> g <> [] ->
  is_Some (agg_cell bars f g).
Proof.
  intros Hin [m Hm] Hg. unfold agg_cell, column_of. rewrite Hm.
  destruct (field_index_Some _ _ Hin) as (i & -> & _).
  apply aggregate_nonempty. by destruct g.
Qed.

Lemma agg_cell_datetime_empty bars : agg_cell bars "datetime" [] = None.
Proof.
  unfold agg_cell, column_of. simpl.
  by destruct (field_index "datetime" (dtype_names bars)).
Qed.

Lemma mapM_id_defined {A} (h : A -> option Z) (l : list A) :
  (forall x, x ∈ l -> is_Some (h x)) ->
  mapM id (map h l) = Some (map (fun x => default 0 (h x)) l).
Proof.
  induction l as [|x l IH]; intros Hall; [done|].
  simpl. destruct (Hall x) as [v Hv]; [by left|].
  rewrite Hv. simpl. rewrite IH; [done|]. intros y Hy. apply Hall. by right.
Qed.

Lemma omap_cons {A B} (f : A -> option B) (x : A) (l : list A) :
  omap f (x :: l) = match f x with Some y => y :: omap f l | None => omap f l end.
Proof. reflexivity. Qed.

(** Dropping the rows with a NaN drops exactly the bins without
    records: the date cell of such a bin is NaN, and a bin with records
    has a value in every cell. *)
Lemma dropna_groups bars fds (groups : list (list (list Z))) :
  "datetime" ∈ fds ->
  (forall f, f ∈ fds -> f ∈ dtype_names bars /\ is_Some (handler f)) ->
  dropna (map (fun g => map (fun f => agg_cell bars f g) fds) groups)
  = map (fun g => map (fun f => default 0 (agg_cell bars f g)) fds)
      (List.filter nonempty groups).
Proof.
  intros Hdt Hall. unfold dropna.
  induction groups as [|g groups IH]; [done|].
  rewrite map_cons, omap_cons, IH. destruct g as [|r g]; cbn [List.filter nonempty].
  - assert (Hn : mapM id (map (fun f => agg_cell bars f []) fds) = None).
    { apply mapM_None_2. apply Exists_exists. exists None. split; [|done].
      apply in_map_iff. exists "datetime". split.
      - apply agg_cell_datetime_empty.
      - by apply list_elem_of_In. }
    by rewrite Hn.
  - rewrite mapM_id_defined; [done|].
    intros f Hf. destruct (Hall f Hf) as [Hin Hh].
    by apply agg_cell_nonempty.
Qed.

Lemma filter_map_comm {A B} (p : B -> bool) (f : A -> B) (l : list A) :
  List.filter p (map f l) = map f (List.filter (fun x => p (f x)) l).
Proof.
  induction l as [|x l IH]; [done|]. simpl.
  destruct (p (f x)); simpl; by rewrite IH.
Qed.

(** The frame the resampler returns for a series in date order whose
    keys are dates, and a list of distinct fields that have a rule and
    include the date: one record per bin that holds bars. *)
Lemma resample_frame_defined bars fds frequency o i :
  to_offset frequency = Ok o ->
  field_index "datetime" (dtype_names bars) = Some i ->
  rows bars <> [] ->
  Forall (fun n => valid_key n = true) (map (cell i) (rows bars)) ->
  ascendingb (map (cell i) (rows bars)) = true ->
  NoDup fds -> "datetime" ∈ fds ->
  (forall f, f ∈ fds -> f ∈ dtype_names bars /\ is_Some (handler f)) ->
  resample_frame bars fds frequency
  = Ok (mk_recarray fds
          (map (fun k => map (fun f => default 0
                  (agg_cell bars f (bucket_rows o i (rows bars) k))) fds)
             (data_bins o i (rows bars)))).
Proof.
  intros Ho Hi Hne Hvalid Hasc Hnd Hdt Hall.
  unfold resample_frame, column. rewrite Hi, (decode_all_valid _ Hvalid), Ho.
  rewrite map_map, zip_stamps.
  rewrite sort_stamped_sorted.
  2:{ rewrite map_map. simpl.
      rewrite <- (map_map (cell i) (fun n => toordinal (date_of_int n))).
      apply (ascendingb_map _ (fun n => valid_key n = true)); [|done|done].
      intros x y Hx Hy Hxy. by apply toordinal_mono. }
  destruct (rows bars) as [|r0 rs] eqn:Hrows; [done|].
  set (stamp := fun r : list Z => (date_of_int (cell i r), r)).
  assert (Hbins : bins o (map stamp (r0 :: rs)) = calendar_bins o i (r0 :: rs)).
  { rewrite map_cons, bins_cons. unfold calendar_bins, row_bucket.
    rewrite last_map. by destruct (list.last rs). }
  rewrite Hbins.
  assert (Hgroups : map (bin_rows o (map stamp (r0 :: rs)))
                      (calendar_bins o i (r0 :: rs))
                    = map (bucket_rows o i (r0 :: rs))
                        (calendar_bins o i (r0 :: rs))).
  { apply map_ext. intros k. subst stamp.
    apply (bin_rows_stamps o (fun r => date_of_int (cell i r))). }
  rewrite Hgroups. clear Hbins Hgroups.
  set (ks := calendar_bins o i (r0 :: rs)).
  unfold data_bins. fold ks. clearbody ks.
  assert (Hinit : map (fun _ : Z => @nil (option Z)) ks
                  = map (fun g => map (fun f => agg_cell bars f g) [])
                      (map (bucket_rows o i (r0 :: rs)) ks))
    by (by rewrite map_map).
  rewrite Hinit, (aggregate_fields_defined bars _ fds [] Hnd Hall).
  cbn [columns cells_of app].
  rewrite (dropna_groups bars fds _ Hdt Hall).
  rewrite filter_map_comm, map_map. reflexivity.
Qed.

(** ** Resampling: the aggregation rules *)

Lemma foldl_max_spec vs : forall v,
  let m := foldl Z.max v vs in
  m ∈ v :: vs /\ Forall (fun x => x <= m) (v :: vs).
Proof.
  induction vs as [|w vs IH]; intros v; simpl.
  - split; [by left|]. constructor; [lia|constructor].
  - destruct (IH (Z.max v w)) as [Hin Hall].
    inversion Hall as [|? ? Hvw Hvs]; subst. split.
    + apply elem_of_cons in Hin as [Heq|Hin]; [|by right; right].
      rewrite Heq. destruct (Z.max_spec v w) as [[_ ->]|[_ ->]];
        [right; left | left]; done.
    + constructor; [lia|]. constructor; [lia|done].
Qed.

Lemma foldl_min_spec vs : forall v,
  let m := foldl Z.min v vs in
  m ∈ v :: vs /\ Forall (fun x => m <= x) (v :: vs).
Proof.
  induction vs as [|w vs IH]; intros v; simpl.
  - split; [by left|]. constructor; [lia|constructor].
  - destruct (IH (Z.min v w)) as [Hin Hall].
    inversion Hall as [|? ? Hvw Hvs]; subst. split.
    + apply elem_of_cons in Hin as [Heq|Hin]; [|by right; right].
      rewrite Heq. destruct (Z.min_spec v w) as [[_ ->]|[_ ->]];
        [left | right; left]; done.
    + constructor; [lia|]. constructor; [lia|done].
Qed.

Lemma foldl_add_total col : forall a, foldl Z.add a col = a + total col.
Proof.
  induction col as [|v col IH]; intros a; simpl; [lia|].
  rewrite IH. unfold total. simpl. lia.
Qed.

(** What the handler table computes for a field is what the aggregation
    table of the specification asks for. *)
Lemma agg_cell_aggregates bars f g v :
  agg_cell bars f g = Some v ->
  aggregates_to f (column_of (dtype_names bars) f g) v.
Proof.
  unfold agg_cell, handler, aggregates_to.
  set (col := column_of (dtype_names bars) f g). clearbody col.
  destruct (String.eqb f "datetime"); [done|].
  destruct (String.eqb f "open"); [done|].
  destruct (String.eqb f "high").
  { destruct col as [|c cs]; simpl; [done|]. intros [= <-].
    apply foldl_max_spec. }
  destruct (String.eqb f "low").
  { destruct col as [|c cs]; simpl; [done|]. intros [= <-].
    apply foldl_min_spec. }
  destruct (String.eqb f "close"); [done|].
  destruct (String.eqb f "volume").
  { simpl. intros [= <-]. by rewrite foldl_add_total. }
  destruct (String.eqb f "total_turnover").
  { simpl. intros [= <-]. by rewrite foldl_add_total. }
  done.
Qed.

(** ** Resampling: the buckets that hold bars *)

Lemma strictly_ascendingb_sorted l :
  StronglySorted Z.lt l -> strictly_ascendingb l = true.
Proof.
  induction 1 as [|x l Hl IH Hx]; [done|].
  destruct l as [|y l]; [done|].
  change (((x <? y) && strictly_ascendingb (y :: l))%bool = true).
  rewrite IH, andb_true_r. apply Z.ltb_lt.
  inversion Hx; subst. done.
Qed.

Lemma seqZ_sorted len : forall m, StronglySorted Z.lt (seqZ m (Z.of_nat len)).
Proof.
  induction len as [|len IH]; intros m.
  - rewrite seqZ_nil by lia. constructor.
  - rewrite seqZ_cons by lia.
    replace (Z.pred (Z.of_nat (S len))) with (Z.of_nat len) by lia.
    constructor; [apply IH|].
    apply Forall_forall. intros k Hk.
    apply list_elem_of_In, elem_of_seqZ in Hk. lia.
Qed.

Lemma filter_sorted (p : Z -> bool) l :
  StronglySorted Z.lt l -> StronglySorted Z.lt (List.filter p l).
Proof.
  induction 1 as [|x l Hl IH Hx]; simpl; [constructor|].
  destruct (p x); [|done]. constructor; [done|].
  apply Forall_forall. intros y Hy. apply filter_In in Hy as [Hy _].
  rewrite Forall_forall in Hx. by apply Hx.
Qed.

Lemma data_bins_sorted o i rs : StronglySorted Z.lt (data_bins o i rs).
Proof.
  unfold data_bins. apply filter_sorted. unfold calendar_bins.
  destruct rs as [|r0 rs]; [constructor|].
  set (n := row_bucket o i (default r0 (list.last rs)) - row_bucket o i r0 + 1).
  destruct (Z.le_gt_cases n 0) as [Hn|Hn].
  - rewrite seqZ_nil by done. constructor.
  - rewrite <- (Z2Nat.id n) by lia. apply seqZ_sorted.
Qed.

Lemma elem_of_bucket_rows o i rs k r :
  r ∈ bucket_rows o i rs k <-> r ∈ rs /\ row_bucket o i r = k.
Proof.
  unfold bucket_rows. rewrite !list_elem_of_In, filter_In, Z.eqb_eq. done.
Qed.

Lemma nonempty_elem_of {A} (l : list A) :
  nonempty l = true <-> exists x, x ∈ l.
Proof.
  destruct l as [|x l]; simpl; split; try done.
  - by intros [x Hx%not_elem_of_nil].
  - intros _. exists x. by left.
Qed.

Lemma field_index_lookup f names i :
  field_index f names = Some i -> names !! i = Some f.
Proof.
  revert i. induction names as [|n names IH]; intros i; [done|].
  simpl. destruct (String.eqb f n) eqn:E.
  - apply String.eqb_eq in E. by intros [= <-]; subst.
  - destruct (field_index f names) as [j|]; [|done].
    intros [= <-]. simpl. by apply IH.
Qed.

Lemma ascendingb_last l z :
  ascendingb l = true -> list.last l = Some z -> Forall (fun x => x <= z) l.
Proof.
  induction l as [|x [|y l] IH]; intros Ha Hl; [constructor| |].
  - injection Hl as <-. constructor; [lia|constructor].
  - rewrite last_cons_cons in Hl.
    simpl in Ha. apply andb_prop in Ha as [Hxy Ha]. apply Z.leb_le in Hxy.
    pose proof (IH Ha Hl) as Hall. constructor; [|done].
    inversion Hall; subst. lia.
Qed.

(** In a series in date order every record falls in a bin between the
    bin of the first record and the bin of the last. *)
Lemma row_bucket_in_calendar_bins o i rs r :
  Forall (fun n => valid_key n = true) (map (cell i) rs) ->
  ascendingb (map (cell i) rs) = true ->
  r ∈ rs -> row_bucket o i r ∈ calendar_bins o i rs.
Proof.
  intros Hvalid Hasc Hr. destruct rs as [|r0 rs]; [by apply not_elem_of_nil in Hr|].
  unfold calendar_bins. apply elem_of_seqZ.
  rewrite Forall_forall in Hvalid.
  assert (Hv : forall x, x ∈ r0 :: rs -> valid_key (cell i x) = true).
  { intros x Hx. apply Hvalid, in_map. by apply list_elem_of_In. }
  assert (Hlast : list.last (r0 :: rs) = Some (default r0 (list.last rs))).
  { rewrite last_cons. by destruct (list.last rs). }
  assert (Hlin : default r0 (list.last rs) ∈ r0 :: rs).
  { by apply last_Some_elem_of. }
  assert (Hlo : cell i r0 <= cell i r).
  { apply elem_of_cons in Hr as [->|Hr]; [lia|].
    destruct (ascendingb_cons _ _ Hasc) as [_ Hall].
    rewrite Forall_forall in Hall. apply Hall, in_map. by apply list_elem_of_In. }
  assert (Hhi : cell i r <= cell i (default r0 (list.last rs))).
  { pose proof (ascendingb_last (map (cell i) (r0 :: rs))
                  (cell i (default r0 (list.last rs))) Hasc) as Hall.
    rewrite last_map, Hlast in Hall. specialize (Hall eq_refl).
    rewrite Forall_forall in Hall. apply Hall, in_map. by apply list_elem_of_In. }
  unfold row_bucket.
  pose proof (bucket_mono o _ _ (Hv r0 ltac:(by left)) (Hv r Hr) Hlo).
  pose proof (bucket_mono o _ _ (Hv r Hr) (Hv _ Hlin) Hhi).
  lia.
Qed.

(** The bins that hold bars are the buckets of the records. *)
Lemma elem_of_data_bins o i rs k :
  Forall (fun n => valid_key n = true) (map (cell i) rs) ->
  ascendingb (map (cell i) rs) = true ->
  k ∈ data_bins o i rs <-> exists r, r ∈ rs /\ row_bucket o i r = k.
Proof.
  intros Hvalid Hasc. unfold data_bins.
  rewrite list_elem_of_In, filter_In, nonempty_elem_of. split.
  - intros [_ [r Hr]]. exists r. by apply elem_of_bucket_rows.
  - intros (r & Hr & <-). split.
    + by apply list_elem_of_In, row_bucket_in_calendar_bins.
    + exists r. by apply elem_of_bucket_rows.
Qed.

Lemma map_sorted (D : Z -> Z) ks :
  StronglySorted Z.lt ks ->
  (forall k k', k ∈ ks -> k' ∈ ks -> k < k' -> D k < D k') ->
  StronglySorted Z.lt (map D ks).
Proof.
  induction 1 as [|k ks Hks IH Hk]; intros Hmono; simpl; [constructor|].
  constructor.
  - apply IH. intros a b Ha Hb. apply Hmono; by right.
  - apply Forall_forall. intros y Hy. apply in_map_iff in Hy as (k' & <- & Hk').
    rewrite Forall_forall in Hk. apply Hmono; [by left| |by apply Hk].
    right. by apply list_elem_of_In.
Qed.

(** The date of a resampled bar is the date of the last bar of its
    bucket. *)
Lemma agg_cell_datetime bars i g :
  field_index "datetime" (dtype_names bars) = Some i ->
  agg_cell bars "datetime" g = option_map (cell i) (list.last g).
Proof.
  intros Hi. unfold agg_cell, column_of. simpl. rewrite Hi. apply last_map.
Qed.

(** Later buckets have later last dates. *)
Lemma bucket_last_date_mono bars o i k k' :
  field_index "datetime" (dtype_names bars) = Some i ->
  Forall (fun n => valid_key n = true) (map (cell i) (rows bars)) ->
  let D := fun k => default 0
             (agg_cell bars "datetime" (bucket_rows o i (rows bars) k)) in
  nonempty (bucket_rows o i (rows bars) k) = true ->
  nonempty (bucket_rows o i (rows bars) k') = true ->
  k < k' -> D k < D k'.
Proof.
  intros Hi Hvalid D Hk Hk' Hlt. subst D. cbv beta.
  rewrite !(agg_cell_datetime bars i _ Hi).
  assert (Hlast : forall k, nonempty (bucket_rows o i (rows bars) k) = true ->
            exists r, list.last (bucket_rows o i (rows bars) k) = Some r /\
                      r ∈ rows bars /\ row_bucket o i r = k).
  { intros k0 Hne.
    destruct (list.last (bucket_rows o i (rows bars) k0)) as [r|] eqn:Hl.
    - exists r. split; [done|]. apply last_Some_elem_of in Hl.
      by apply elem_of_bucket_rows in Hl.
    - apply last_None in Hl. by rewrite Hl in Hne. }
  destruct (Hlast k Hk) as (r & -> & Hr & Hb).
  destruct (Hlast k' Hk') as (r' & -> & Hr' & Hb'). simpl.
  rewrite Forall_forall in Hvalid.
  assert (Hv : valid_key (cell i r) = true).
  { apply Hvalid, in_map. by apply list_elem_of_In. }
  assert (Hv' : valid_key (cell i r') = true).
  { apply Hvalid, in_map. by apply list_elem_of_In. }
  destruct (Z.lt_ge_cases (cell i r) (cell i r')) as [|Hge]; [done|].
  pose proof (bucket_mono o _ _ Hv' Hv Hge) as Hmono.
  unfold row_bucket in Hb, Hb'. lia.
Qed.

Lemma _resample_k_bars_requested bars fields frequency h fs :
  requested fields h = Some fs ->
  exists h', _resample_k_bars bars fields frequency h
             = (resample_frame bars (with_datetime fs) frequency, h').
Proof.
  intros Hreq. destruct fields as [|s|l]; simpl in Hreq; [done| |];
    injection Hreq as <-.
  - rewrite _resample_k_bars_str. unfold with_datetime.
    destruct (mem "datetime" [s]); eauto.
  - rewrite _resample_k_bars_deref. unfold with_datetime.
    destruct (mem "datetime" (deref h l)); eauto.
Qed.

Lemma with_datetime_NoDup fs : NoDup fs -> NoDup (with_datetime fs).
Proof.
  intros Hnd. unfold with_datetime.
  destruct (mem "datetime" fs) eqn:Hm; [done|].
  apply mem_false in Hm. apply list.NoDup_app. split; [done|]. split.
  - intros f Hf Hdt. apply list_elem_of_singleton in Hdt as ->. done.
  - apply NoDup_singleton.
Qed.

Lemma with_datetime_elem_of fs f :
  f ∈ with_datetime fs <-> f ∈ fs \/ f = "datetime".
Proof.
  unfold with_datetime. destruct (mem "datetime" fs) eqn:Hm.
  - apply mem_elem_of in Hm. split; [by left|]. by intros [?| ->].
  - rewrite elem_of_app, list_elem_of_singleton. done.
Qed.

(** C2, as the code has it: for a non-empty daily series in date order
    whose keys are calendar dates, and an explicit set of distinct fields
    each of which has an aggregation rule, weekly ([W-Fri]) and monthly
    ([M]) resampling succeeds and returns one record per calendar bucket
    that holds at least one bar, in calendar order, and none for the
    others.  The record of a bucket has the requested fields, and the
    date if it was not requested, each aggregated over the bars of the
    bucket by the table: date and close of the last bar, open of the
    first, largest high, smallest low, summed volume and turnover.  The
    result is strictly ascending by date key. *)
Theorem _resample_k_bars_buckets
    (bars : recarray) (fields : pyfields) (frequency : string) (h : heap)
    (o : offset) (i : nat) (fs : list string) :
  to_offset frequency = Ok o ->
  field_index "datetime" (dtype_names bars) = Some i ->
  rows bars <> [] ->
  Forall (fun n => valid_key n = true) (map (cell i) (rows bars)) ->
  strictly_ascendingb (map (cell i) (rows bars)) = true ->
  requested fields h = Some fs ->
  NoDup fs ->
  (forall f, f ∈ fs -> f ∈ dtype_names bars /\ is_Some (handler f)) ->
  exists out h' ks j,
    _resample_k_bars bars fields frequency h = (Ok out, h') /\
    dtype_names out = with_datetime fs /\
    strictly_ascendingb ks = true /\
    (forall k, k ∈ ks <-> exists r, r ∈ rows bars /\ row_bucket o i r = k) /\
    Forall2
      (fun k row =>
         Forall2
           (fun f v =>
              aggregates_to f
                (column_of (dtype_names bars) f (bucket_rows o i (rows bars) k)) v)
           (with_datetime fs) row)
      ks (rows out) /\
    field_index "datetime" (dtype_names out) = Some j /\
    strictly_ascendingb (map (cell j) (rows out)) = true.
Proof.
  intros Ho Hi Hne Hvalid Hsasc Hreq Hnd Hall.
  pose proof (strictly_ascendingb_ascendingb _ Hsasc) as Hasc.
  destruct (_resample_k_bars_requested bars fields frequency h fs Hreq)
    as [h' Hrun].
  set (fds := with_datetime fs) in *.
  assert (Hdt : "datetime" ∈ fds) by (apply with_datetime_elem_of; by right).
  assert (Hall' : forall f, f ∈ fds ->
                    f ∈ dtype_names bars /\ is_Some (handler f)).
  { intros f Hf. apply with_datetime_elem_of in Hf as [Hf| ->]; [by apply Hall|].
    split; [|by eexists].
    apply list_elem_of_lookup. exists i. by apply field_index_lookup. }
  pose proof (resample_frame_defined bars fds frequency o i Ho Hi Hne Hvalid
                Hasc (with_datetime_NoDup fs Hnd) Hdt Hall') as Hframe.
  destruct (field_index_Some "datetime" fds Hdt) as (j & Hj & Hjl).
  set (ks := data_bins o i (rows bars)) in *.
  set (value := fun k f => default 0
         (agg_cell bars f (bucket_rows o i (rows bars) k))) in *.
  assert (Hks : forall k, k ∈ ks -> nonempty (bucket_rows o i (rows bars) k) = true).
  { intros k Hk. subst ks. unfold data_bins in Hk.
    apply list_elem_of_In, filter_In in Hk. tauto. }
  eexists _, h', ks, j. rewrite Hrun, Hframe.
  split; [reflexivity|]. split; [reflexivity|]. split.
  { apply strictly_ascendingb_sorted, data_bins_sorted. }
  split; [intros k; by apply elem_of_data_bins|]. split.
  { simpl rows. apply Forall2_fmap_r, Forall_Forall2_diag.
    apply list.Forall_forall. intros k Hk.
    apply Forall2_fmap_r, Forall_Forall2_diag.
    apply list.Forall_forall. intros f Hf.
    destruct (Hall' f Hf) as [Hin Hh].
    destruct (agg_cell_nonempty bars f (bucket_rows o i (rows bars) k) Hin Hh)
      as [v Hv].
    { intros Hnil. specialize (Hks k Hk). by rewrite Hnil in Hks. }
    unfold value, compose. rewrite Hv. simpl. by apply agg_cell_aggregates. }
  split; [exact Hj|]. simpl rows.
  rewrite map_map.
  assert (Hcol : forall k, cell j (map (value k) fds) = value k "datetime").
  { intros k. unfold cell. apply nth_lookup_Some.
    by rewrite list_lookup_fmap, Hjl. }
  rewrite (map_ext _ _ Hcol).
  apply strictly_ascendingb_sorted, map_sorted; [apply data_bins_sorted|].
  intros k k' Hk Hk' Hlt.
  apply (bucket_last_date_mono bars o i k k' Hi Hvalid); auto.
Qed.

Lemma forallb_Forall_true {A} (p : A -> bool) (l : list A) :
  forallb p l = true -> Forall (fun x => p x = true) l.
Proof.
  rewrite forallb_forall. intros H. apply Forall_forall. exact H.
Qed.

Lemma fields_with_rules (fs names : list string) :
  forallb (fun f => mem f names && bool_decide (is_Some (handler f))) fs = true ->
  forall f, f ∈ fs -> f ∈ names /\ is_Some (handler f).
Proof.
  rewrite forallb_forall. intros H f Hf.
  apply list_elem_of_In, H, andb_prop in Hf as [Hm Hh].
  split; [by apply mem_elem_of | by apply bool_decide_eq_true_1 in Hh].
Qed.

Lemma _resample_k_bars_buckets_witness :
  exists out h' ks j,
    _resample_k_bars Demo.bars (FList 0%nat) "W-Fri" Demo.caller_heap
      = (Ok out, h') /\
    dtype_names out = with_datetime ["close"; "volume"] /\
    strictly_ascendingb ks = true /\
    (forall k, k ∈ ks <->
       exists r, r ∈ rows Demo.bars /\ row_bucket W_FRI 0 r = k) /\
    Forall2
      (fun k row =>
         Forall2
           (fun f v =>
              aggregates_to f
                (column_of Demo.names7 f (bucket_rows W_FRI 0 (rows Demo.bars) k)) v)
           (with_datetime ["close"; "volume"]) row)
      ks (rows out) /\
    field_index "datetime" (dtype_names out) = Some j /\
    strictly_ascendingb (map (cell j) (rows out)) = true.
Proof.
  apply (_resample_k_bars_buckets Demo.bars (FList 0%nat) "W-Fri"
           Demo.caller_heap W_FRI 0 ["close"; "volume"] eq_refl eq_refl).
  - discriminate.
  - apply forallb_Forall_true. reflexivity.
  - reflexivity.
  - reflexivity.
  - apply NoDup_has_dup. reflexivity.
  - apply fields_with_rules. reflexivity.
Defined.

(** The week of Monday 2 to Thursday 5 January 2017, without a Friday
    bar: first open, largest high, smallest low, last close and date,
    summed volume; the weeks without bars between 9 and 23 January give no
    record. *)
Example resample_week_example :
  fst (_resample_k_bars Demo.bars (FList 1%nat) "W-Fri"
         (<[1%nat := ["open"; "high"; "low"; "close"; "volume"]]> Demo.caller_heap))
  = Ok (mk_recarray ["open"; "high"; "low"; "close"; "volume"; "datetime"]
          [ [10; 16; 8; 15; 800; 20170105];
            [15; 17; 14; 16; 500; 20170109];
            [16; 19; 15; 18; 600; 20170123];
            [18; 21; 17; 20; 700; 20170201] ]).
Proof. reflexivity. Qed.

Example resample_month_example :
  fst (_resample_k_bars Demo.bars (FStr "close") "M" Demo.caller_heap)
  = Ok (mk_recarray ["close"; "datetime"] [ [18; 20170123]; [20; 20170201] ]).
Proof. reflexivity. Qed.

(** A field of the schema that the handler table does not list has no
    aggregation: resampling the settlement price of a future raises. *)
Lemma resample_settlement_raises :
  let h := <[1%nat := ["settlement"]]> Demo.caller_heap in
  rows Demo.future_bars <> [] /\
  strictly_ascendingb (map (cell 0) (rows Demo.future_bars)) = true /\
  forallb valid_key (map (cell 0) (rows Demo.future_bars)) = true /\
  _are_fields_valid (FList 1%nat) (dtype_names Demo.future_bars) h = (Ok true, h) /\
  fst (_resample_k_bars Demo.future_bars (FList 1%nat) "W-Fri" h)
    = Raise KeyError /\
  fst (history_bars Demo.source Demo.future 3 "W" (FList 1%nat)
         (mk_date 2017 1 31) true false h) = Raise KeyError.
Proof. cbv zeta. split; [discriminate|]. repeat split; reflexivity. Qed.

(** ** The projection after resampling *)

(** A weekly query for the list [["close"; "volume"]]: the records
    returned carry the date as well, and the caller's list has become
    [["close"; "volume"; "datetime"]]. *)
Example history_bars_weekly_list_example :
  history_bars Demo.source Demo.stock 3 "W" (FList 0%nat) (mk_date 2017 1 31)
    false false Demo.caller_heap
  = (Ok (Some (Records
       (mk_recarray ["close"; "volume"; "datetime"]
          [ [15; 800; 20170105]; [16; 500; 20170109]; [18; 600; 20170123] ]))),
     <[0%nat := ["close"; "volume"; "datetime"]]> Demo.caller_heap).
Proof. reflexivity. Qed.

(** With a single field name the projection drops the date. *)
Example history_bars_weekly_name_drops_datetime :
  fst (history_bars Demo.source Demo.stock 3 "W" (FStr "close")
         (mk_date 2017 1 31) false false Demo.caller_heap)
  = Ok (Some (Column [15; 16; 18])).
Proof. reflexivity. Qed.

Lemma field_indexes_self_defined (fs names : list string) :
  (forall f, f ∈ fs -> f ∈ names) -> is_Some (field_indexes fs names).
Proof.
  intros H. destruct (field_indexes_Some fs names H) as (ixs & -> & _). by eexists.
Qed.

(** C3 fails on a list of names: a weekly or monthly query for a list of
    distinct names with rules, without ["datetime"], on a series in date
    order returns records that carry the names of the list and
    ["datetime"], not the requested names alone.  The resampler has
    appended ["datetime"] to the very list that the final projection
    [bars[left:i][fields]] then uses. *)
Theorem history_bars_resampled_list_keeps_datetime
    (self : BaseDataSource) (ins : instrument) (bar_count : Z)
    (frequency : string) (dt : date) (skip_suspended include_now : bool)
    (h : heap) (bars : recarray) (l : loc) (fs : list string) (i : nat) :
  selected_series self ins skip_suspended = Ok (Some bars) ->
  frequency = "W" \/ frequency = "M" ->
  h !! l = Some fs ->
  "datetime" ∉ fs ->
  NoDup fs ->
  (forall f, f ∈ fs -> f ∈ dtype_names bars /\ is_Some (handler f)) ->
  field_index "datetime" (dtype_names bars) = Some i ->
  rows bars <> [] ->
  Forall (fun n => valid_key n = true) (map (cell i) (rows bars)) ->
  strictly_ascendingb (map (cell i) (rows bars)) = true ->
  exists a,
    history_bars self ins bar_count frequency (FList l) dt
      skip_suspended include_now h
    = (Ok (Some (Records a)), <[l := fs ++ ["datetime"]]> h) /\
    dtype_names a = fs ++ ["datetime"].
Proof.
  intros Hsel Hf Hl Hnodt Hnd Hall Hi Hne Hvalid Hsasc.
  pose proof (strictly_ascendingb_ascendingb _ Hsasc) as Hasc.
  assert (Hwd : with_datetime fs = fs ++ ["datetime"]).
  { unfold with_datetime. apply mem_false in Hnodt. by rewrite Hnodt. }
  assert (Hnd' : NoDup (fs ++ ["datetime"])).
  { rewrite <- Hwd. by apply with_datetime_NoDup. }
  assert (Hdt : "datetime" ∈ fs ++ ["datetime"]).
  { apply elem_of_app. right. by apply list_elem_of_singleton. }
  assert (Hall' : forall f, f ∈ fs ++ ["datetime"] ->
                    f ∈ dtype_names bars /\ is_Some (handler f)).
  { intros f Hf'. apply elem_of_app in Hf' as [Hf'|Hf']; [by apply Hall|].
    apply list_elem_of_singleton in Hf' as ->. split; [|by eexists].
    apply list_elem_of_lookup. exists i. by apply field_index_lookup. }
  assert (Ho : exists o, to_offset (if String.eqb frequency "W"
                                    then "W-Fri" else "M") = Ok o).
  { destruct Hf as [-> | ->]; simpl; eauto. }
  destruct Ho as [o Ho].
  rewrite history_bars_supported by (apply supported_frequency; tauto).
  rewrite Hsel.
  assert (Hv : _are_fields_valid (FList l) (dtype_names bars) h = (Ok true, h)).
  { apply _are_fields_valid_true. simpl. intros fs' [= <-] f Hf'.
    rewrite (deref_lookup _ _ _ Hl) in Hf'. by apply Hall. }
  rewrite Hv, (resample_step_resampled _ _ _ _ Hf).
  rewrite (_resample_k_bars_list _ _ _ _ fs Hl).
  apply mem_false in Hnodt. rewrite Hnodt.
  rewrite (resample_frame_defined bars _ _ o i Ho Hi Hne Hvalid Hasc Hnd' Hdt Hall').
  destruct (field_index_Some "datetime" (fs ++ ["datetime"]) Hdt) as (j & Hj & _).
  unfold column. cbn [dtype_names rows]. rewrite Hj. cbv zeta.
  unfold getitem, bind, read. rewrite deref_insert.
  unfold getitem_names. cbn [dtype_names rows].
  destruct (fs ++ ["datetime"]) as [|f0 fs0] eqn:Hfs.
  { by destruct fs. }
  destruct (field_indexes_self_defined (f0 :: fs0) (f0 :: fs0)) as [ixs ->];
    [done|].
  rewrite (has_dup_NoDup _ Hnd'). eexists. split; reflexivity.
Qed.

Lemma history_bars_resampled_list_keeps_datetime_witness :
  exists a,
    history_bars Demo.source Demo.stock 3 "W" (FList 0%nat) (mk_date 2017 1 31)
      false false Demo.caller_heap
    = (Ok (Some (Records a)),
       <[0%nat := ["close"; "volume"; "datetime"]]> Demo.caller_heap) /\
    dtype_names a = ["close"; "volume"; "datetime"].
Proof.
  apply (history_bars_resampled_list_keeps_datetime Demo.source Demo.stock 3
           "W" (mk_date 2017 1 31) false false Demo.caller_heap Demo.bars
           0%nat ["close"; "volume"] 0%nat eq_refl (or_introl eq_refl) eq_refl).
  - apply mem_false. reflexivity.
  - apply NoDup_has_dup. reflexivity.
  - apply fields_with_rules. reflexivity.
  - reflexivity.
  - discriminate.
  - apply forallb_Forall_true. reflexivity.
  - reflexivity.
Defined.

(** * Further properties of the engine *)

(** ** The window, without assumptions on the order of the series *)

(** The bisection stays inside the array, sorted or not. *)
Lemma bisect_bounds s a key fuel : forall lo hi,
  (lo <= hi)%nat -> (lo <= bisect s a key fuel lo hi <= hi)%nat.
Proof.
  induction fuel as [|fuel IH]; intros lo hi Hle; cbn [bisect]; cbv zeta;
    [lia|].
  destruct (lo <? hi)%nat eqn:Hlt; [|lia].
  apply Nat.ltb_lt in Hlt.
  set (mid := (lo + (hi - lo) / 2)%nat).
  assert (Hmid : (lo <= mid < hi)%nat).
  { subst mid. assert ((hi - lo) / 2 < hi - lo)%nat by (apply Nat.div_lt; lia).
    lia. }
  clearbody mid.
  destruct (goes_right s (nth mid a 0) key).
  - pose proof (IH (S mid) hi ltac:(lia)). lia.
  - pose proof (IH lo mid ltac:(lia)). lia.
Qed.

Lemma searchsorted_le_length a key s : (searchsorted a key s <= length a)%nat.
Proof.
  unfold searchsorted.
  pose proof (bisect_bounds s a key (length a) 0%nat (length a)). lia.
Qed.

(** A slice with bounds inside the list, as a prefix without its first
    records. *)
Lemma slice_drop_take {A} (l : list A) (lo : Z) (p : nat) :
  0 <= lo -> (p <= length l)%nat ->
  slice lo (Z.of_nat p) l = drop (Z.to_nat lo) (take p l).
Proof.
  intros Hlo Hp. unfold slice, clamp.
  destruct (lo <? 0) eqn:H1; [apply Z.ltb_lt in H1; lia|].
  destruct (Z.of_nat p <? 0) eqn:H2; [apply Z.ltb_lt in H2; lia|].
  destruct (Z.le_gt_cases lo (Z.of_nat p)) as [Hle|Hgt].
  - replace (Z.min lo (Z.of_nat (length l))) with lo by lia.
    replace (Z.min (Z.of_nat p) (Z.of_nat (length l))) with (Z.of_nat p) by lia.
    rewrite take_drop_commute. f_equal. f_equal. lia.
  - replace (Z.to_nat (Z.min (Z.of_nat p) (Z.of_nat (length l))
                       - Z.min lo (Z.of_nat (length l)))) with 0%nat by lia.
    rewrite take_0, drop_ge; [done|]. rewrite length_take. lia.
Qed.

(** The left end of the window is never negative. *)
Lemma window_left_nonneg (bar_count i : Z) :
  0 <= i -> 0 <= (if bar_count <=? i then i - bar_count else 0).
Proof.
  intros Hi. destruct (bar_count <=? i) eqn:H; [apply Z.leb_le in H|]; lia.
Qed.

(** A daily query for all fields, on a present series with a date
    column: the records before the boundary, without the first ones. *)
Lemma history_bars_daily_all self ins bar_count dt skip inc h bars k :
  selected_series self ins skip = Ok (Some bars) ->
  field_index "datetime" (dtype_names bars) = Some k ->
  let i := searchsorted (map (cell k) (rows bars)) (convert_date_to_int dt) SRight in
  let left := if bar_count <=? Z.of_nat i then Z.of_nat i - bar_count else 0 in
  history_bars self ins bar_count "1d" FNone dt skip inc h
  = (Ok (Some (Records (mk_recarray (dtype_names bars)
                          (drop (Z.to_nat left) (take i (rows bars)))))), h).
Proof.
  intros Hsel Hk i left.
  rewrite history_bars_supported by reflexivity. rewrite Hsel.
  cbn [_are_fields_valid ret].
  change (resample_step "1d" bars FNone h) with (@Ok recarray bars, h).
  unfold column. rewrite Hk. cbv zeta. fold i. fold left.
  cbn [getitem ret]. rewrite slice_drop_take; [done| |].
  - apply window_left_nonneg. lia.
  - pose proof (searchsorted_le_length (map (cell k) (rows bars))
                  (convert_date_to_int dt) SRight) as H.
    fold i in H. by rewrite length_map in H.
Qed.

Lemma bisect_none_passed s a key fuel : forall lo hi,
  (forall j, (j < length a)%nat -> goes_right s (nth j a 0) key = false) ->
  (lo <= hi <= length a)%nat -> bisect s a key fuel lo hi = lo.
Proof.
  induction fuel as [|fuel IH]; intros lo hi Hall Hb; cbn [bisect]; cbv zeta;
    [done|].
  destruct (lo <? hi)%nat eqn:Hlt; [|done].
  apply Nat.ltb_lt in Hlt.
  set (mid := (lo + (hi - lo) / 2)%nat).
  assert (Hmid : (lo <= mid < hi)%nat).
  { subst mid. assert ((hi - lo) / 2 < hi - lo)%nat by (apply Nat.div_lt; lia).
    lia. }
  clearbody mid. rewrite Hall by lia. apply IH; [done|lia].
Qed.

Lemma bisect_all_passed s a key fuel : forall lo hi,
  (forall j, (j < length a)%nat -> goes_right s (nth j a 0) key = true) ->
  (hi - lo <= fuel)%nat -> (lo <= hi <= length a)%nat ->
  bisect s a key fuel lo hi = hi.
Proof.
  induction fuel as [|fuel IH]; intros lo hi Hall Hfuel Hb; cbn [bisect];
    cbv zeta; [lia|].
  destruct (lo <? hi)%nat eqn:Hlt; [|apply Nat.ltb_ge in Hlt; lia].
  apply Nat.ltb_lt in Hlt.
  set (mid := (lo + (hi - lo) / 2)%nat).
  assert (Hmid : (lo <= mid < hi)%nat).
  { subst mid. assert ((hi - lo) / 2 < hi - lo)%nat by (apply Nat.div_lt; lia).
    lia. }
  clearbody mid. rewrite Hall by lia. apply IH; [done|lia|lia].
Qed.

Lemma Forall_nth_column (P : Z -> Prop) k (rs : list (list Z)) :
  Forall (fun r => P (cell k r)) rs ->
  forall j, (j < length (map (cell k) rs))%nat -> P (nth j (map (cell k) rs) 0).
Proof.
  intros Hall j Hj. rewrite length_map in Hj. rewrite nth_column.
  rewrite list.Forall_forall in Hall. apply Hall.
  apply list_elem_of_In, nth_In. done.
Qed.





(** X3: a daily query for a date before every record of a present
    series returns an array without records, not [None]: "no bar yet" and
    "no such instrument" are different answers. *)
Theorem history_bars_before_first_record
    (self : BaseDataSource) (ins : instrument) (bar_count : Z) (dt : date)
    (skip_suspended include_now : bool) (h : heap) (bars : recarray)
    (k : nat) :
  selected_series self ins skip_suspended = Ok (Some bars) ->
  field_index "datetime" (dtype_names bars) = Some k ->
  Forall (fun r => convert_date_to_int dt < cell k r) (rows bars) ->
  history_bars self ins bar_count "1d" FNone dt skip_suspended include_now h
  = (Ok (Some (Records (mk_recarray (dtype_names bars) []))), h).
Proof.
  intros Hsel Hk Hall.
  rewrite (history_bars_daily_all _ _ _ _ _ _ _ bars k Hsel Hk). cbv zeta.
  assert (Hi : searchsorted (map (cell k) (rows bars))
                 (convert_date_to_int dt) SRight = 0%nat).
  { unfold searchsorted. apply bisect_none_passed; [|lia].
    intros j Hj. simpl. apply Z.leb_gt.
    by apply (Forall_nth_column (fun v => convert_date_to_int dt < v)). }
  rewrite Hi. rewrite take_0. by rewrite drop_nil.
Qed.

Lemma history_bars_before_first_record_witness :
  history_bars Demo.source Demo.stock 3 "1d" FNone (mk_date 2016 12 30)
    false false Demo.caller_heap
  = (Ok (Some (Records (mk_recarray Demo.names7 []))), Demo.caller_heap).
Proof.
  apply (history_bars_before_first_record Demo.source Demo.stock 3
           (mk_date 2016 12 30) false false Demo.caller_heap Demo.bars 0%nat
           eq_refl eq_refl).
  eapply list.Forall_impl.
  - apply (forallb_Forall_true
             (fun r => convert_date_to_int (mk_date 2016 12 30) <? cell 0 r)).
    reflexivity.
  - intros r Hr. by apply Z.ltb_lt in Hr.
Defined.

(** X4: a daily query for a date at or after every record returns the
    last [bar_count] records of the series, all of them when the series is
    shorter. *)
Theorem history_bars_after_last_record
    (self : BaseDataSource) (ins : instrument) (bar_count : Z) (dt : date)
    (skip_suspended include_now : bool) (h : heap) (bars : recarray)
    (k : nat) :
  selected_series self ins skip_suspended = Ok (Some bars) ->
  field_index "datetime" (dtype_names bars) = Some k ->
  Forall (fun r => cell k r <= convert_date_to_int dt) (rows bars) ->
  0 < bar_count ->
  history_bars self ins bar_count "1d" FNone dt skip_suspended include_now h
  = (Ok (Some (Records (mk_recarray (dtype_names bars)
       (drop (length (rows bars) - Z.to_nat bar_count) (rows bars))))), h).
Proof.
  intros Hsel Hk Hall Hn.
  rewrite (history_bars_daily_all _ _ _ _ _ _ _ bars k Hsel Hk). cbv zeta.
  assert (Hi : searchsorted (map (cell k) (rows bars))
                 (convert_date_to_int dt) SRight = length (rows bars)).
  { unfold searchsorted. rewrite bisect_all_passed; [apply length_map| |lia|lia].
    intros j Hj. simpl. apply Z.leb_le.
    by apply (Forall_nth_column (fun v => v <= convert_date_to_int dt)). }
  rewrite Hi. rewrite firstn_all.
  assert (Hleft : Z.to_nat (if bar_count <=? Z.of_nat (length (rows bars))
                            then Z.of_nat (length (rows bars)) - bar_count
                            else 0)
                  = (length (rows bars) - Z.to_nat bar_count)%nat).
  { destruct (bar_count <=? Z.of_nat (length (rows bars))) eqn:Hle;
      rewrite ?Z.leb_le, ?Z.leb_gt in Hle; lia. }
  by rewrite Hleft.
Qed.

Lemma history_bars_after_last_record_witness :
  history_bars Demo.source Demo.stock 2 "1d" FNone (mk_date 2017 3 1)
    false false Demo.caller_heap
  = (Ok (Some (Records (mk_recarray Demo.names7
       (drop (length (rows Demo.bars) - Z.to_nat 2) (rows Demo.bars))))),
     Demo.caller_heap).
Proof.
  apply (history_bars_after_last_record Demo.source Demo.stock 2
           (mk_date 2017 3 1) false false Demo.caller_heap Demo.bars 0%nat
           eq_refl eq_refl).
  - eapply list.Forall_impl.
    + apply (forallb_Forall_true
               (fun r => cell 0 r <=? convert_date_to_int (mk_date 2017 3 1))).
      reflexivity.
    + intros r Hr. by apply Z.leb_le in Hr.
  - lia.
Defined.

(** ** Exact lookup and the window agree *)

Lemma strictly_ascendingb_cons x l :
  strictly_ascendingb (x :: l) = true ->
  strictly_ascendingb l = true /\ Forall (fun y => x < y) l.
Proof.
  revert x. induction l as [|y l IH]; intros x H; [by split|].
  simpl in H. apply andb_prop in H as [Hxy Hl]. apply Z.ltb_lt in Hxy.
  split; [exact Hl|]. constructor; [exact Hxy|].
  destruct (IH y Hl) as [_ Hy].
  eapply list.Forall_impl; [exact Hy|]. simpl; intros; lia.
Qed.

Lemma strictly_ascendingb_nth a :
  strictly_ascendingb a = true ->
  forall i j, (i < j < length a)%nat -> nth i a 0 < nth j a 0.
Proof.
  induction a as [|x a IH]; intros Ha i j Hij; [simpl in Hij; lia|].
  destruct (strictly_ascendingb_cons _ _ Ha) as [Ha' Hx].
  destruct i as [|i], j as [|j]; simpl in *; try lia.
  - rewrite Forall_forall in Hx. apply Hx. apply nth_In. lia.
  - apply IH; [done|lia].
Qed.

Lemma drop_take_one {A} (l : list A) (d : A) : forall p,
  (p < length l)%nat -> drop p (take (S p) l) = [nth p l d].
Proof.
  induction l as [|x l IH]; intros p Hp; [simpl in Hp; lia|].
  destruct p as [|p]; simpl.
  - by rewrite take_0.
  - apply IH. simpl in Hp. lia.
Qed.

(** What [get_bar] has found, when it returns a record. *)
Lemma get_bar_returned self ins d bars i r :
  _all_day_bars_of self ins = Ok (Some bars) ->
  field_index "datetime" (dtype_names bars) = Some i ->
  get_bar self ins d "1d" = Ok (Some r) ->
  let pos := searchsorted (map (cell i) (rows bars)) (convert_date_to_int d) SLeft in
  (pos < length (rows bars))%nat /\
  cell i (nth pos (rows bars) []) = convert_date_to_int d /\
  r = mk_record (dtype_names bars) (nth pos (rows bars) []).
Proof.
  intros Hfull Hi Hget pos.
  rewrite (get_bar_daily self ins d bars i Hfull Hi) in Hget. cbv zeta in Hget.
  fold pos in Hget.
  destruct (length (rows bars) <=? pos)%nat eqn:Hge; [discriminate|].
  destruct (nth pos (map (cell i) (rows bars)) 0 =? convert_date_to_int d)
    eqn:Heq; [|discriminate].
  simpl in Hget. injection Hget as <-.
  apply Nat.leb_gt in Hge. apply Z.eqb_eq in Heq. rewrite nth_column in Heq.
  done.
Qed.

(** On a series in date order [get_bar] finds the record of a date that
    has one. *)
Lemma get_bar_finds self ins d bars i r0 :
  _all_day_bars_of self ins = Ok (Some bars) ->
  field_index "datetime" (dtype_names bars) = Some i ->
  ascendingb (map (cell i) (rows bars)) = true ->
  r0 ∈ rows bars -> cell i r0 = convert_date_to_int d ->
  exists r, get_bar self ins d "1d" = Ok (Some (mk_record (dtype_names bars) r)) /\
            r ∈ rows bars /\ cell i r = convert_date_to_int d.
Proof.
  intros Hfull Hi Hasc Hin Hkey.
  rewrite (get_bar_daily self ins d bars i Hfull Hi). cbv zeta.
  set (key := convert_date_to_int d) in *.
  set (dts := map (cell i) (rows bars)) in *.
  destruct (searchsorted_spec dts key SLeft Hasc) as (Hp & Hl & Hr).
  set (pos := searchsorted dts key SLeft) in *.
  assert (Hlen : length dts = length (rows bars)) by apply length_map.
  apply list_elem_of_lookup in Hin as [j Hj].
  assert (Hdj : dts !! j = Some key).
  { subst dts. rewrite list_lookup_fmap, Hj. simpl. by rewrite Hkey. }
  pose proof (lookup_lt_Some _ _ _ Hdj) as Hjlt.
  assert (Hpj : (pos <= j)%nat).
  { destruct (decide (pos <= j)%nat) as [|Hn]; [done|]. exfalso.
    assert (Ht : take pos dts !! j = Some key) by (by rewrite lookup_take_lt by lia).
    rewrite Forall_forall in Hl.
    apply list_elem_of_lookup_2, list_elem_of_In, Hl in Ht.
    simpl in Ht. apply Z.ltb_lt in Ht. lia. }
  assert (Hge : key <= nth pos dts 0).
  { assert (Hd : drop pos dts !! 0%nat = Some (nth pos dts 0)).
    { rewrite lookup_drop, Nat.add_0_r. apply lookup_nth. lia. }
    rewrite Forall_forall in Hr.
    apply list_elem_of_lookup_2, list_elem_of_In, Hr in Hd.
    simpl in Hd. by apply Z.ltb_ge in Hd. }
  assert (Hle : nth pos dts 0 <= key).
  { rewrite <- (nth_lookup_Some _ _ 0 _ Hdj). apply ascendingb_nth; [done|lia]. }
  assert (Hposlt : (length (rows bars) <=? pos)%nat = false)
    by (apply Nat.leb_gt; lia).
  assert (Heq : (nth pos dts 0 =? key) = true) by (apply Z.eqb_eq; lia).
  rewrite Hposlt, Heq. simpl.
  exists (nth pos (rows bars) []). split; [reflexivity|]. split.
  - apply list_elem_of_In, nth_In. lia.
  - apply Z.eqb_eq in Heq. rewrite <- Heq. subst dts. by rewrite nth_column.
Qed.

(** X5: on a series with strictly ascending dates, when [get_bar]
    returns the bar of a date, a daily [history_bars] for one bar on that
    date, without suspension filtering, returns exactly that bar. *)
Theorem history_bars_one_is_get_bar
    (self : BaseDataSource) (ins : instrument) (dt : date)
    (include_now : bool) (h : heap) (bars : recarray) (k : nat) (r : record) :
  _all_day_bars_of self ins = Ok (Some bars) ->
  field_index "datetime" (dtype_names bars) = Some k ->
  strictly_ascendingb (map (cell k) (rows bars)) = true ->
  get_bar self ins dt "1d" = Ok (Some r) ->
  history_bars self ins 1 "1d" FNone dt false include_now h
  = (Ok (Some (Records (mk_recarray (dtype_names bars) [cells r]))), h).
Proof.
  intros Hfull Hk Hsasc Hget.
  destruct (get_bar_returned self ins dt bars k r Hfull Hk Hget)
    as (Hpos & Hdate & ->).
  set (key := convert_date_to_int dt) in *.
  set (dts := map (cell k) (rows bars)) in *.
  set (pos := searchsorted dts key SLeft) in *.
  assert (Hsel : selected_series self ins false = Ok (Some bars)) by done.
  rewrite (history_bars_daily_all _ _ _ _ _ _ _ bars k Hsel Hk). cbv zeta.
  fold key. fold dts.
  destruct (searchsorted_spec dts key SRight
              (strictly_ascendingb_ascendingb _ Hsasc)) as (Hi & Hl & Hr).
  set (i := searchsorted dts key SRight) in *.
  assert (Hlen : length dts = length (rows bars)) by apply length_map.
  assert (Hp : nth pos dts 0 = key) by (subst dts; by rewrite nth_column).
  assert (Hlt : (pos < i)%nat).
  { destruct (decide (pos < i)%nat) as [|Hn]; [done|]. exfalso.
    assert (Hd : drop i dts !! (pos - i)%nat = Some key).
    { rewrite lookup_drop. replace (i + (pos - i))%nat with pos by lia.
      rewrite <- Hp. apply lookup_nth. lia. }
    rewrite Forall_forall in Hr.
    apply list_elem_of_lookup_2, list_elem_of_In, Hr in Hd.
    simpl in Hd. apply Z.leb_gt in Hd. lia. }
  assert (Hle : (i <= S pos)%nat).
  { destruct (decide (i <= S pos)%nat) as [|Hn]; [done|]. exfalso.
    assert (Ht : take i dts !! S pos = Some (nth (S pos) dts 0)).
    { rewrite lookup_take_lt by lia. apply lookup_nth. lia. }
    rewrite Forall_forall in Hl.
    apply list_elem_of_lookup_2, list_elem_of_In, Hl in Ht.
    simpl in Ht. apply Z.leb_le in Ht.
    pose proof (strictly_ascendingb_nth dts Hsasc pos (S pos) ltac:(lia)). lia. }
  assert (Hieq : i = S pos) by lia. rewrite Hieq.
  assert (Hone : (1 <=? Z.of_nat (S pos)) = true) by (apply Z.leb_le; lia).
  rewrite Hone.
  replace (Z.to_nat (Z.of_nat (S pos) - 1)) with pos by lia.
  by rewrite (drop_take_one _ []) by done.
Qed.

Lemma history_bars_one_is_get_bar_witness :
  get_bar Demo.source Demo.stock (mk_date 2017 1 4) "1d"
    = Ok (Some (mk_record Demo.names7 [20170104; 12; 9; 12; 8; 300; 3000])) /\
  history_bars Demo.source Demo.stock 1 "1d" FNone (mk_date 2017 1 4)
    false false Demo.caller_heap
  = (Ok (Some (Records (mk_recarray Demo.names7
                          [[20170104; 12; 9; 12; 8; 300; 3000]]))),
     Demo.caller_heap).
Proof.
  split; [reflexivity|].
  apply (history_bars_one_is_get_bar Demo.source Demo.stock (mk_date 2017 1 4)
           false Demo.caller_heap Demo.bars 0%nat
           (mk_record Demo.names7 [20170104; 12; 9; 12; 8; 300; 3000])
           eq_refl eq_refl eq_refl eq_refl).
Defined.

(** ** Suspension filtering *)

(** The filtered series of a present series with a volume column. *)
Lemma _filtered_day_bars_present self ins bars v :
  _all_day_bars_of self ins = Ok (Some bars) ->
  field_index "volume" (dtype_names bars) = Some v ->
  _filtered_day_bars self ins
  = Ok (Some (mk_recarray (dtype_names bars)
                (List.filter (fun r => 0 <? cell v r) (rows bars)))).
Proof.
  intros Hfull Hv. unfold _filtered_day_bars, column. rewrite Hfull, Hv.
  by rewrite (mask_select_filter (fun x => 0 <? x) (cell v)).
Qed.

(** X6: a daily window of a stock with [skip_suspended] holds only
    records of the full series with a positive volume, whatever the date
    and the bar count: a suspended day never appears in it. *)
Theorem history_bars_skips_suspended_days
    (self : BaseDataSource) (ins : instrument) (bar_count : Z) (dt : date)
    (include_now : bool) (h : heap) (bars : recarray) (k v : nat) :
  type ins = "CS" ->
  _all_day_bars_of self ins = Ok (Some bars) ->
  field_index "datetime" (dtype_names bars) = Some k ->
  field_index "volume" (dtype_names bars) = Some v ->
  exists w,
    history_bars self ins bar_count "1d" FNone dt true include_now h
      = (Ok (Some (Records (mk_recarray (dtype_names bars) w))), h) /\
    Forall (fun r => r ∈ rows bars /\ 0 < cell v r) w.
Proof.
  intros Htype Hfull Hk Hv.
  assert (Hsel : selected_series self ins true
                 = Ok (Some (mk_recarray (dtype_names bars)
                               (List.filter (fun r => 0 <? cell v r) (rows bars))))).
  { unfold selected_series. rewrite Htype. simpl.
    by apply _filtered_day_bars_present. }
  rewrite (history_bars_daily_all _ _ _ _ _ _ _ _ k Hsel Hk). cbv zeta.
  eexists. split; [reflexivity|].
  apply Forall_drop, Forall_take. cbn [rows].
  apply list.Forall_forall. intros r Hr.
  apply list_elem_of_In, filter_In in Hr as [Hr Hpos].
  split; [by apply list_elem_of_In | by apply Z.ltb_lt].
Qed.

Lemma history_bars_skips_suspended_days_witness :
  exists w,
    history_bars Demo.source Demo.stock 3 "1d" FNone (mk_date 2017 1 4)
      true false Demo.caller_heap
      = (Ok (Some (Records (mk_recarray Demo.names7 w))), Demo.caller_heap) /\
    Forall (fun r => r ∈ rows Demo.bars /\ 0 < cell 5 r) w.
Proof.
  apply (history_bars_skips_suspended_days Demo.source Demo.stock 3
           (mk_date 2017 1 4) false Demo.caller_heap Demo.bars 0%nat 5%nat
           eq_refl eq_refl eq_refl eq_refl).
Defined.

Lemma ascendingb_intro x l :
  Forall (fun y => x <= y) l -> ascendingb l = true -> ascendingb (x :: l) = true.
Proof.
  intros Hx Hl. destruct l as [|y l]; [done|].
  change (((x <=? y) && ascendingb (y :: l))%bool = true).
  rewrite Hl, andb_true_r. apply Z.leb_le. by inversion Hx.
Qed.

Lemma strictly_ascendingb_intro x l :
  Forall (fun y => x < y) l -> strictly_ascendingb l = true ->
  strictly_ascendingb (x :: l) = true.
Proof.
  intros Hx Hl. destruct l as [|y l]; [done|].
  change (((x <? y) && strictly_ascendingb (y :: l))%bool = true).
  rewrite Hl, andb_true_r. apply Z.ltb_lt. by inversion Hx.
Qed.

Lemma Forall_filter_map (P : Z -> Prop) (f : list Z -> Z) (p : list Z -> bool)
    (l : list (list Z)) :
  Forall P (map f l) -> Forall P (map f (List.filter p l)).
Proof.
  induction l as [|r l IH]; simpl; [done|].
  intros H. inversion H; subst. destruct (p r); simpl; [constructor|]; auto.
Qed.

Lemma ascendingb_filter (f : list Z -> Z) (p : list Z -> bool) l :
  ascendingb (map f l) = true -> ascendingb (map f (List.filter p l)) = true.
Proof.
  induction l as [|r l IH]; [done|]. simpl map at 1. intros Ha.
  destruct (ascendingb_cons _ _ Ha) as [Ha' Hx]. simpl.
  destruct (p r); [|by apply IH]. simpl.
  apply ascendingb_intro; [by apply Forall_filter_map | by apply IH].
Qed.

Lemma strictly_ascendingb_filter (f : list Z -> Z) (p : list Z -> bool) l :
  strictly_ascendingb (map f l) = true ->
  strictly_ascendingb (map f (List.filter p l)) = true.
Proof.
  induction l as [|r l IH]; [done|]. simpl map at 1. intros Ha.
  destruct (strictly_ascendingb_cons _ _ Ha) as [Ha' Hx]. simpl.
  destruct (p r); [|by apply IH]. simpl.
  apply strictly_ascendingb_intro; [by apply Forall_filter_map | by apply IH].
Qed.

(** X7: filtering keeps the order of the series: when a column of the
    full series (the date) is ascending, or strictly ascending, so is that
    column of the filtered series; the bisection of [history_bars] stays
    sound on it. *)
Theorem _filtered_day_bars_keeps_order
    (self : BaseDataSource) (ins : instrument) (bars : recarray) (k v : nat) :
  _all_day_bars_of self ins = Ok (Some bars) ->
  field_index "volume" (dtype_names bars) = Some v ->
  exists kept,
    _filtered_day_bars self ins = Ok (Some (mk_recarray (dtype_names bars) kept)) /\
    (ascendingb (map (cell k) (rows bars)) = true ->
       ascendingb (map (cell k) kept) = true) /\
    (strictly_ascendingb (map (cell k) (rows bars)) = true ->
       strictly_ascendingb (map (cell k) kept) = true).
Proof.
  intros Hfull Hv. eexists. split; [by apply _filtered_day_bars_present|].
  split; [apply ascendingb_filter | apply strictly_ascendingb_filter].
Qed.

Lemma _filtered_day_bars_keeps_order_witness :
  exists kept,
    _filtered_day_bars Demo.source Demo.stock
      = Ok (Some (mk_recarray Demo.names7 kept)) /\
    (ascendingb (map (cell 0) (rows Demo.bars)) = true ->
       ascendingb (map (cell 0) kept) = true) /\
    (strictly_ascendingb (map (cell 0) (rows Demo.bars)) = true ->
       strictly_ascendingb (map (cell 0) kept) = true).
Proof.
  apply (_filtered_day_bars_keeps_order Demo.source Demo.stock Demo.bars
           0%nat 5%nat eq_refl eq_refl).
Defined.

Lemma filter_all {A} (p : A -> bool) (l : list A) :
  Forall (fun x => p x = true) l -> List.filter p l = l.
Proof.
  induction 1 as [|x l Hx _ IH]; [done|]. simpl. by rewrite Hx, IH.
Qed.

(** X8: for an instrument all of whose bars have a positive volume,
    [skip_suspended] changes nothing: the two queries return the same, for
    every frequency, field set, date and bar count. *)
Theorem history_bars_skip_suspended_without_effect
    (self : BaseDataSource) (ins : instrument) (bar_count : Z)
    (frequency : string) (fields : pyfields) (dt : date)
    (include_now : bool) (h : heap) (bars : recarray) (v : nat) :
  _all_day_bars_of self ins = Ok (Some bars) ->
  field_index "volume" (dtype_names bars) = Some v ->
  Forall (fun r => 0 < cell v r) (rows bars) ->
  history_bars self ins bar_count frequency fields dt true include_now h
  = history_bars self ins bar_count frequency fields dt false include_now h.
Proof.
  intros Hfull Hv Hall.
  destruct (mem frequency ["1d"; "W"; "M"]) eqn:Hf.
  2:{ unfold history_bars. by rewrite Hf. }
  assert (Hsel : selected_series self ins true = Ok (Some bars)).
  { unfold selected_series.
    destruct (true && String.eqb (type ins) "CS"); [|done].
    rewrite (_filtered_day_bars_present self ins bars v Hfull Hv).
    rewrite filter_all; [by destruct bars|].
    eapply list.Forall_impl; [exact Hall|]. intros r Hr. by apply Z.ltb_lt. }
  rewrite (history_bars_on_selected self ins bar_count frequency fields dt
             true include_now h (Some bars) Hf Hsel).
  symmetry. by apply history_bars_on_selected.
Qed.

Lemma history_bars_skip_suspended_without_effect_witness :
  history_bars (with_series (Some Demo.future_bars)) Demo.stock 3 "W"
    (FStr "close") (mk_date 2017 1 4) true false Demo.caller_heap
  = history_bars (with_series (Some Demo.future_bars)) Demo.stock 3 "W"
      (FStr "close") (mk_date 2017 1 4) false false Demo.caller_heap.
Proof.
  apply (history_bars_skip_suspended_without_effect
           (with_series (Some Demo.future_bars)) Demo.stock 3
           "W" (FStr "close") (mk_date 2017 1 4) false Demo.caller_heap
           Demo.future_bars 5%nat eq_refl eq_refl).
  eapply list.Forall_impl.
  - apply (forallb_Forall_true (fun r => 0 <? cell 5 r)). reflexivity.
  - intros r Hr. by apply Z.ltb_lt in Hr.
Defined.

(** ** Instruments of an unknown class *)

(** X9: an instrument whose type is not a key of [INSTRUMENT_TYPE_MAP]
    is an error, not an absence: the daily [get_bar], [get_settle_price],
    [_filtered_day_bars] and every [history_bars] with a supported
    frequency raise [KeyError], whatever the other arguments, and the
    state is left as it was. *)
Theorem unknown_type_raises
    (self : BaseDataSource) (ins : instrument) (dt : date) (bar_count : Z)
    (frequency : string) (fields : pyfields)
    (skip_suspended include_now : bool) (h : heap) :
  INSTRUMENT_TYPE_MAP (type ins) = None ->
  get_bar self ins dt "1d" = Raise KeyError /\
  get_settle_price self ins dt = Raise KeyError /\
  _filtered_day_bars self ins = Raise KeyError /\
  (mem frequency ["1d"; "W"; "M"] = true ->
   history_bars self ins bar_count frequency fields dt
     skip_suspended include_now h = (Raise KeyError, h)).
Proof.
  intros Hmap.
  assert (Hall : _all_day_bars_of self ins = Raise KeyError).
  { unfold _all_day_bars_of, _index_of. by rewrite Hmap. }
  assert (Hfil : _filtered_day_bars self ins = Raise KeyError).
  { unfold _filtered_day_bars. by rewrite Hall. }
  assert (Hget : get_bar self ins dt "1d" = Raise KeyError).
  { unfold get_bar. simpl. by rewrite Hall. }
  split; [exact Hget|]. split; [unfold get_settle_price; by rewrite Hget|].
  split; [exact Hfil|]. intros Hf.
  rewrite history_bars_supported by done. unfold selected_series.
  destruct (skip_suspended && String.eqb (type ins) "CS"); by rewrite ?Hfil, ?Hall.
Qed.

Lemma unknown_type_raises_witness :
  get_bar Demo.source Demo.option_contract (mk_date 2017 1 4) "1d"
    = Raise KeyError /\
  get_settle_price Demo.source Demo.option_contract (mk_date 2017 1 4)
    = Raise KeyError /\
  _filtered_day_bars Demo.source Demo.option_contract = Raise KeyError /\
  (mem "W" ["1d"; "W"; "M"] = true ->
   history_bars Demo.source Demo.option_contract 3 "W" (FList 0%nat)
     (mk_date 2017 1 4) true false Demo.caller_heap
   = (Raise KeyError, Demo.caller_heap)).
Proof.
  apply (unknown_type_raises Demo.source Demo.option_contract
           (mk_date 2017 1 4) 3 "W" (FList 0%nat) true false Demo.caller_heap).
  reflexivity.
Defined.

(** ** The settlement price *)

(** X10: on a present series in date order, [get_settle_price] returns
    the settlement of a record of the requested date when the series has
    one and the schema a settlement field, and NaN when the series has no
    record of that date; for a schema without settlement field it raises
    on the dates that have a record and returns NaN on the others. *)
Theorem get_settle_price_of_date
    (self : BaseDataSource) (ins : instrument) (dt : date)
    (bars : recarray) (i : nat) :
  _all_day_bars_of self ins = Ok (Some bars) ->
  field_index "datetime" (dtype_names bars) = Some i ->
  ascendingb (map (cell i) (rows bars)) = true ->
  let key := convert_date_to_int dt in
  (~ (exists r, r ∈ rows bars /\ cell i r = key) ->
     get_settle_price self ins dt = Ok None) /\
  ((exists r, r ∈ rows bars /\ cell i r = key) ->
     match field_index "settlement" (dtype_names bars) with
     | Some j =>
         exists r, r ∈ rows bars /\ cell i r = key /\
                   get_settle_price self ins dt = Ok (Some (cell j r))
     | None => exists e, get_settle_price self ins dt = Raise e
     end).
Proof.
  intros Hfull Hi Hasc key. split.
  - intros Hno. unfold get_settle_price.
    destruct (get_bar self ins dt "1d") as [[r|]|e] eqn:Hget; [|done|].
    + exfalso. apply Hno.
      destruct (get_bar_returned self ins dt bars i r Hfull Hi Hget)
        as (Hpos & Hdate & _).
      eexists. split; [|exact Hdate]. by apply list_elem_of_In, nth_In.
    + rewrite (get_bar_daily self ins dt bars i Hfull Hi) in Hget.
      cbv zeta in Hget.
      by destruct (_ || _)%bool in Hget.
  - intros (r0 & Hin & Hkey).
    destruct (get_bar_finds self ins dt bars i r0 Hfull Hi Hasc Hin Hkey)
      as (r & Hget & Hr & Hd).
    unfold get_settle_price, record_field. rewrite Hget. cbn [record_names cells].
    destruct (field_index "settlement" (dtype_names bars)) as [j|];
      [|by eexists].
    exists r. done.
Qed.

Lemma get_settle_price_of_date_witness :
  get_settle_price Demo.source Demo.future (mk_date 2017 1 4) = Ok None /\
  (exists r, r ∈ rows Demo.future_bars /\ cell 0 r = 20170103 /\
     get_settle_price Demo.source Demo.future (mk_date 2017 1 3)
       = Ok (Some (cell 7 r))) /\
  (exists e,
     get_settle_price Demo.source Demo.stock (mk_date 2017 1 3) = Raise e).
Proof.
  split; [|split].
  - apply (get_settle_price_of_date Demo.source Demo.future (mk_date 2017 1 4)
             Demo.future_bars 0%nat eq_refl eq_refl eq_refl).
    intros (r & Hr & Hk).
    assert (Hall : Forall (fun r => cell 0 r <> 20170104) (rows Demo.future_bars)).
    { eapply list.Forall_impl.
      - apply (forallb_Forall_true (fun r => negb (cell 0 r =? 20170104))).
        reflexivity.
      - intros x Hx. simpl in Hx. apply negb_true_iff in Hx.
        by apply Z.eqb_neq in Hx. }
    rewrite list.Forall_forall in Hall. by apply (Hall r Hr).
  - apply (get_settle_price_of_date Demo.source Demo.future (mk_date 2017 1 3)
             Demo.future_bars 0%nat eq_refl eq_refl eq_refl).
    exists [20170103; 11; 12; 13; 10; 200; 2000; 12]. split; [|reflexivity].
    apply list_elem_of_In. simpl. tauto.
  - apply (get_settle_price_of_date Demo.source Demo.stock (mk_date 2017 1 3)
             Demo.bars 0%nat eq_refl eq_refl eq_refl).
    exists [20170103; 11; 12; 13; 10; 0; 0]. split; [|reflexivity].
    apply list_elem_of_In. simpl. tauto.
Defined.

(** ** Resampled bars *)

(** Boolean checks for the two vocabulary predicates. *)
Lemma daily_series_check bars i :
  field_index "datetime" (dtype_names bars) = Some i ->
  nonempty (rows bars) = true ->
  forallb valid_key (map (cell i) (rows bars)) = true ->
  strictly_ascendingb (map (cell i) (rows bars)) = true ->
  daily_series bars i.
Proof.
  intros Hi Hne Hv Hs. split; [done|]. split; [by destruct (rows bars)|].
  split; [by apply forallb_Forall_true | done].
Qed.

Lemma ruled_fields_check bars fs :
  has_dup fs = false ->
  forallb (fun f => mem f (dtype_names bars)
                    && bool_decide (is_Some (handler f))) fs = true ->
  ruled_fields bars fs.
Proof.
  intros Hd Hf. split; [by apply NoDup_has_dup | by apply fields_with_rules].
Qed.

(** The resampled array in closed form: one record per bucket that holds
    bars, and in it the aggregate of each field over the bars of the
    bucket. *)
Lemma _resample_k_bars_closed bars fields frequency h o i fs :
  to_offset frequency = Ok o ->
  daily_series bars i ->
  requested fields h = Some fs ->
  ruled_fields bars fs ->
  exists h',
    _resample_k_bars bars fields frequency h
    = (Ok (mk_recarray (with_datetime fs)
             (map (fun k => map (fun f => default 0
                     (agg_cell bars f (bucket_rows o i (rows bars) k)))
                     (with_datetime fs))
                (data_bins o i (rows bars)))), h').
Proof.
  intros Ho (Hi & Hne & Hvalid & Hsasc) Hreq (Hnd & Hall).
  destruct (_resample_k_bars_requested bars fields frequency h fs Hreq)
    as [h' ->].
  exists h'. f_equal.
  apply (resample_frame_defined bars _ frequency o i Ho Hi Hne Hvalid).
  - by apply strictly_ascendingb_ascendingb.
  - by apply with_datetime_NoDup.
  - apply with_datetime_elem_of. by right.
  - intros f Hf. apply with_datetime_elem_of in Hf as [Hf| ->]; [by apply Hall|].
    split; [|by eexists].
    apply list_elem_of_lookup. exists i. by apply field_index_lookup.
Qed.

(** The cell of a requested field in the record built for a bucket. *)
Lemma field_value_built (fds : list string) (F : string -> Z) (f : string) :
  f ∈ fds -> field_value fds f (map F fds) = F f.
Proof.
  intros Hf. unfold field_value.
  destruct (field_index_Some f fds Hf) as (j & -> & Hj).
  unfold cell. apply nth_lookup_Some. by rewrite list_lookup_fmap, Hj.
Qed.

Lemma aggregate_singleton m v : aggregate m [v] = Some v.
Proof. by destruct m. Qed.

(** X11: a bucket that holds a single bar yields that bar: in the
    resampled array its record has, in every requested field, the value of
    the bar (first, last, largest, smallest and sum coincide). *)
Theorem _resample_k_bars_single_bar_bucket
    (bars : recarray) (fields : pyfields) (frequency : string) (h : heap)
    (o : offset) (i : nat) (fs : list string) (r : list Z) :
  to_offset frequency = Ok o ->
  daily_series bars i ->
  requested fields h = Some fs ->
  ruled_fields bars fs ->
  r ∈ rows bars ->
  bucket_rows o i (rows bars) (row_bucket o i r) = [r] ->
  exists out h',
    _resample_k_bars bars fields frequency h = (Ok out, h') /\
    dtype_names out = with_datetime fs /\
    map (fun f => field_value (dtype_names bars) f r) (with_datetime fs)
      ∈ rows out.
Proof.
  intros Ho Hd Hreq Hrf Hr Hone.
  destruct (_resample_k_bars_closed bars fields frequency h o i fs Ho Hd Hreq Hrf)
    as [h' Hrun].
  destruct Hd as (Hi & Hne & Hvalid & Hsasc). destruct Hrf as (Hnd & Hall).
  eexists _, h'. split; [exact Hrun|]. split; [reflexivity|]. cbn [rows].
  apply list_elem_of_In, in_map_iff. exists (row_bucket o i r). split.
  - rewrite Hone. apply map_ext_in. intros f Hf.
    apply list_elem_of_In, with_datetime_elem_of in Hf.
    assert (Hin : f ∈ dtype_names bars /\ is_Some (handler f)).
    { destruct Hf as [Hf| ->]; [by apply Hall|]. split; [|by eexists].
      apply list_elem_of_lookup. exists i. by apply field_index_lookup. }
    destruct Hin as [Hin [m Hm]].
    unfold agg_cell, column_of, field_value. rewrite Hm.
    destruct (field_index_Some f _ Hin) as (j & -> & _).
    simpl map. by rewrite aggregate_singleton.
  - apply list_elem_of_In, elem_of_data_bins; [done| |by exists r].
    by apply strictly_ascendingb_ascendingb.
Qed.

Lemma _resample_k_bars_single_bar_bucket_witness :
  exists out h',
    _resample_k_bars Demo.bars (FList 0%nat) "W-Fri" Demo.caller_heap
      = (Ok out, h') /\
    dtype_names out = with_datetime ["close"; "volume"] /\
    map (fun f => field_value Demo.names7 f [20170109; 15; 16; 17; 14; 500; 5000])
      (with_datetime ["close"; "volume"]) ∈ rows out.
Proof.
  apply (_resample_k_bars_single_bar_bucket Demo.bars (FList 0%nat) "W-Fri"
           Demo.caller_heap W_FRI 0%nat ["close"; "volume"]
           [20170109; 15; 16; 17; 14; 500; 5000] eq_refl).
  - apply daily_series_check; reflexivity.
  - reflexivity.
  - apply ruled_fields_check; reflexivity.
  - apply list_elem_of_In. simpl. tauto.
  - reflexivity.
Defined.

Lemma sorted_NoDup (l : list Z) : StronglySorted Z.lt l -> NoDup l.
Proof.
  induction 1 as [|x l Hl IH Hx]; constructor; [|done].
  intros Hin. rewrite Forall_forall in Hx.
  apply list_elem_of_In, Hx in Hin. lia.
Qed.






(** X13: resampling never yields more bars than it is given, and at
    least one: the resampled array of a daily series has between one
    record and as many records as the series. *)
Theorem _resample_k_bars_length
    (bars : recarray) (fields : pyfields) (frequency : string) (h : heap)
    (o : offset) (i : nat) (fs : list string) :
  to_offset frequency = Ok o ->
  daily_series bars i ->
  requested fields h = Some fs ->
  ruled_fields bars fs ->
  exists out h',
    _resample_k_bars bars fields frequency h = (Ok out, h') /\
    (1 <= length (rows out) <= length (rows bars))%nat.
Proof.
  intros Ho Hd Hreq Hrf.
  destruct (_resample_k_bars_closed bars fields frequency h o i fs Ho Hd Hreq Hrf)
    as [h' Hrun].
  destruct Hd as (Hi & Hne & Hvalid & Hsasc).
  pose proof (strictly_ascendingb_ascendingb _ Hsasc) as Hasc.
  eexists _, h'. split; [exact Hrun|]. cbn [rows]. rewrite length_map. split.
  - destruct (rows bars) as [|r0 rs] eqn:Hrows; [done|].
    assert (Hk : row_bucket o i r0 ∈ data_bins o i (r0 :: rs)).
    { apply elem_of_data_bins; [done|done|]. exists r0. split; [by left|done]. }
    destruct (data_bins o i (r0 :: rs)); [by apply not_elem_of_nil in Hk|].
    simpl. lia.
  - rewrite <- (length_map (row_bucket o i) (rows bars)).
    apply NoDup_incl_length;
      [apply NoDup_ListNoDup, sorted_NoDup, data_bins_sorted|].
    intros k Hk.
    apply list_elem_of_In, (elem_of_data_bins o i _ k Hvalid Hasc) in Hk
      as (r & Hr & <-).
    apply in_map. by apply list_elem_of_In.
Qed.

Lemma _resample_k_bars_length_witness :
  exists out h',
    _resample_k_bars Demo.bars (FStr "high") "W-Fri" Demo.caller_heap
      = (Ok out, h') /\
    (1 <= length (rows out) <= length (rows Demo.bars))%nat.
Proof.
  apply (_resample_k_bars_length Demo.bars (FStr "high") "W-Fri"
           Demo.caller_heap W_FRI 0%nat ["high"] eq_refl).
  - apply daily_series_check; reflexivity.
  - reflexivity.
  - apply ruled_fields_check; reflexivity.
Defined.

(** The aggregates of the four price fields over a non-empty group of
    bars that each have their open and close between low and high. *)
Lemma group_price_range bars (g : list (list Z)) (jo jh jl jc : nat) :
  field_index "open" (dtype_names bars) = Some jo ->
  field_index "high" (dtype_names bars) = Some jh ->
  field_index "low" (dtype_names bars) = Some jl ->
  field_index "close" (dtype_names bars) = Some jc ->
  g <> [] ->
  Forall (fun r => cell jl r <= cell jo r <= cell jh r /\
                   cell jl r <= cell jc r <= cell jh r) g ->
  let v := fun f => default 0 (agg_cell bars f g) in
  v "low" <= v "open" <= v "high" /\ v "low" <= v "close" <= v "high".
Proof.
  intros Ho Hh Hl Hc Hne Hall v. subst v. cbv beta.
  unfold agg_cell, column_of.
  change (handler "low") with (Some min).
  change (handler "open") with (Some first).
  change (handler "high") with (Some max).
  change (handler "close") with (Some last_).
  rewrite Ho, Hh, Hl, Hc.
  destruct g as [|r0 g]; [done|]. clear Hne.
  destruct (list.last (r0 :: g)) as [rl|] eqn:Hlast;
    [|by apply last_None in Hlast].
  assert (Hrl : rl ∈ r0 :: g) by (by apply last_Some_elem_of).
  rewrite list.Forall_forall in Hall.
  pose proof (Hall r0 ltac:(by left)) as H0.
  pose proof (Hall rl Hrl) as Hl'.
  cbn [aggregate]. rewrite last_map, Hlast. cbn [map head option_map default].
  destruct (foldl_max_spec (map (cell jh) g) (cell jh r0)) as [_ Hmax].
  destruct (foldl_min_spec (map (cell jl) g) (cell jl r0)) as [_ Hmin].
  cbv zeta in Hmax, Hmin.
  change (cell jh r0 :: map (cell jh) g) with (map (cell jh) (r0 :: g)) in Hmax.
  change (cell jl r0 :: map (cell jl) g) with (map (cell jl) (r0 :: g)) in Hmin.
  rewrite Forall_forall in Hmax, Hmin.
  pose proof (Hmax _ (in_map (cell jh) _ _ (proj1 (list_elem_of_In _ _) Hrl))).
  pose proof (Hmin _ (in_map (cell jl) _ _ (proj1 (list_elem_of_In _ _) Hrl))).
  pose proof (Hmax (cell jh r0) ltac:(by left)).
  pose proof (Hmin (cell jl r0) ltac:(by left)).
  unfold id. lia.
Qed.

(** X14: resampling keeps prices in range: when open, high, low and
    close are requested and every daily bar has its open and its close
    between its low and its high, so has every resampled bar. *)
Theorem _resample_k_bars_keeps_price_range
    (bars : recarray) (fields : pyfields) (frequency : string) (h : heap)
    (o : offset) (i : nat) (fs : list string) :
  to_offset frequency = Ok o ->
  daily_series bars i ->
  requested fields h = Some fs ->
  ruled_fields bars fs ->
  Forall (fun f => f ∈ fs) ["open"; "high"; "low"; "close"] ->
  Forall (fun r =>
            let v := fun f => field_value (dtype_names bars) f r in
            v "low" <= v "open" <= v "high" /\
            v "low" <= v "close" <= v "high") (rows bars) ->
  exists out h',
    _resample_k_bars bars fields frequency h = (Ok out, h') /\
    Forall (fun r =>
              let v := fun f => field_value (dtype_names out) f r in
              v "low" <= v "open" <= v "high" /\
              v "low" <= v "close" <= v "high") (rows out).
Proof.
  intros Ho Hd Hreq Hrf Hfour Hbars.
  destruct (_resample_k_bars_closed bars fields frequency h o i fs Ho Hd Hreq Hrf)
    as [h' Hrun].
  destruct Hd as (Hi & Hne & Hvalid & Hsasc). destruct Hrf as (Hnd & Hall).
  eexists _, h'. split; [exact Hrun|]. cbn [rows dtype_names].
  rewrite list.Forall_forall in Hfour.
  assert (Hidx : forall f, f ∈ ["open"; "high"; "low"; "close"] ->
            f ∈ with_datetime fs /\ exists j, field_index f (dtype_names bars) = Some j).
  { intros f Hf. specialize (Hfour f Hf). split.
    - apply with_datetime_elem_of. by left.
    - destruct (Hall f Hfour) as [Hin _].
      destruct (field_index_Some f _ Hin) as (j & Hj & _). eauto. }
  destruct (Hidx "open") as [Hfo [jo Hjo]]; [by apply mem_elem_of|].
  destruct (Hidx "high") as [Hfh [jh Hjh]]; [by apply mem_elem_of|].
  destruct (Hidx "low") as [Hfl [jl Hjl]]; [by apply mem_elem_of|].
  destruct (Hidx "close") as [Hfc [jc Hjc]]; [by apply mem_elem_of|].
  apply list.Forall_forall. intros row Hrow.
  apply list_elem_of_In, in_map_iff in Hrow as (k & <- & Hk). cbv zeta.
  rewrite !field_value_built by done.
  apply (group_price_range bars _ jo jh jl jc Hjo Hjh Hjl Hjc).
  - unfold data_bins in Hk. apply filter_In in Hk as [_ Hk].
    intros Hnil. by rewrite Hnil in Hk.
  - apply list.Forall_forall. intros r Hr.
    apply elem_of_bucket_rows in Hr as [Hr _].
    rewrite list.Forall_forall in Hbars. specialize (Hbars r Hr).
    cbv zeta in Hbars. unfold field_value in Hbars.
    by rewrite Hjo, Hjh, Hjl, Hjc in Hbars.
Qed.

Lemma _resample_k_bars_keeps_price_range_witness :
  let h := <[1%nat := ["open"; "high"; "low"; "close"]]> Demo.caller_heap in
  exists out h',
    _resample_k_bars Demo.bars (FList 1%nat) "W-Fri" h = (Ok out, h') /\
    Forall (fun r =>
              let v := fun f => field_value (dtype_names out) f r in
              v "low" <= v "open" <= v "high" /\
              v "low" <= v "close" <= v "high") (rows out).
Proof.
  apply (_resample_k_bars_keeps_price_range Demo.bars (FList 1%nat) "W-Fri"
           (<[1%nat := ["open"; "high"; "low"; "close"]]> Demo.caller_heap)
           W_FRI 0%nat ["open"; "high"; "low"; "close"] eq_refl).
  - apply daily_series_check; reflexivity.
  - reflexivity.
  - apply ruled_fields_check; reflexivity.
  - eapply list.Forall_impl.
    + apply (forallb_Forall_true
               (fun f => mem f ["open"; "high"; "low"; "close"])). reflexivity.
    + intros f Hf. by apply mem_elem_of.
  - eapply list.Forall_impl.
    + apply (forallb_Forall_true
               (fun r => let v := fun f => field_value Demo.names7 f r in
                         (v "low" <=? v "open") && (v "open" <=? v "high") &&
                         (v "low" <=? v "close") && (v "close" <=? v "high"))).
      reflexivity.
    + intros r Hr. cbv zeta in Hr |- *.
      rewrite !andb_true_iff, !Z.leb_le in Hr. tauto.
Defined.

(** ** Repeating a query with the same list object *)

(** X15: a query repeated with the same list object, on a series that has
    a ["datetime"] field, returns what the first call returned and leaves
    the list as the first call left it: a weekly or monthly query appends
    ["datetime"] to the caller's list at most once.  This holds for every
    frequency and every count, whether the first call returns records,
    [None] or an error. *)
Theorem history_bars_list_call_repeated
    (self : BaseDataSource) (ins : instrument) (bar_count : Z)
    (frequency : string) (l : loc) (dt : date)
    (skip_suspended include_now : bool) (h : heap) (bars : recarray) :
  selected_series self ins skip_suspended = Ok (Some bars) ->
  "datetime" ∈ dtype_names bars ->
  history_bars self ins bar_count frequency (FList l) dt skip_suspended
    include_now
    (snd (history_bars self ins bar_count frequency (FList l) dt
            skip_suspended include_now h))
  = history_bars self ins bar_count frequency (FList l) dt skip_suspended
      include_now h.
Proof.
  intros Hsel Hdt.
  destruct (mem frequency ["1d"; "W"; "M"]) eqn:Hf.
  2:{ unfold history_bars. rewrite Hf. reflexivity. }
  assert (Hval : _are_fields_valid (FList l) (dtype_names bars) h
                 = (Ok (forallb (fun field => mem field (dtype_names bars))
                          (deref h l)), h)) by reflexivity.
  assert (Hstable :
            snd (history_bars self ins bar_count frequency (FList l) dt
                   skip_suspended include_now h) = h ->
            history_bars self ins bar_count frequency (FList l) dt
              skip_suspended include_now
              (snd (history_bars self ins bar_count frequency (FList l) dt
                      skip_suspended include_now h))
            = history_bars self ins bar_count frequency (FList l) dt
                skip_suspended include_now h).
  { intros ->. reflexivity. }
  destruct (forallb (fun field => mem field (dtype_names bars)) (deref h l))
    eqn:Hb.
  2:{ apply Hstable. rewrite history_bars_supported by done.
      rewrite Hsel, Hval. reflexivity. }
  pose proof (proj1 (supported_frequency frequency) Hf) as [-> | Hwm].
  { apply Hstable. apply history_bars_daily_heap. }
  destruct (mem "datetime" (deref h l)) eqn:Hm.
  { apply Hstable.
    rewrite (history_bars_heap _ _ _ _ _ _ _ _ _ bars Hf Hsel Hval).
    rewrite (resample_step_resampled _ _ _ _ Hwm), _resample_k_bars_deref, Hm.
    reflexivity. }
  clear Hstable.
  rewrite (history_bars_heap _ _ _ _ _ _ _ _ _ bars Hf Hsel Hval).
  rewrite (resample_step_resampled _ _ _ _ Hwm), _resample_k_bars_deref, Hm.
  cbn [snd].
  assert (Hval1 : _are_fields_valid (FList l) (dtype_names bars)
                    (<[l := deref h l ++ ["datetime"]]> h)
                  = (Ok true, <[l := deref h l ++ ["datetime"]]> h)).
  { unfold _are_fields_valid, bind, read, ret.
    rewrite deref_insert, forallb_app, Hb. simpl.
    apply mem_elem_of in Hdt. rewrite Hdt. reflexivity. }
  assert (Hm1 : mem "datetime" (deref h l ++ ["datetime"]) = true).
  { apply mem_elem_of, elem_of_app. right. by apply list_elem_of_singleton. }
  rewrite !history_bars_supported by done.
  rewrite Hsel, Hval, Hval1.
  rewrite !(resample_step_resampled _ _ _ _ Hwm), !_resample_k_bars_deref.
  rewrite Hm, deref_insert, Hm1. reflexivity.
Qed.

Lemma history_bars_list_call_repeated_witness :
  history_bars Demo.source Demo.stock 3 "W" (FList 0%nat) (mk_date 2017 1 31)
    false false
    (snd (history_bars Demo.source Demo.stock 3 "W" (FList 0%nat)
            (mk_date 2017 1 31) false false Demo.caller_heap))
  = history_bars Demo.source Demo.stock 3 "W" (FList 0%nat) (mk_date 2017 1 31)
      false false Demo.caller_heap.
Proof.
  apply (history_bars_list_call_repeated Demo.source Demo.stock 3 "W" 0%nat
           (mk_date 2017 1 31) false false Demo.caller_heap Demo.bars eq_refl).
  apply mem_elem_of. reflexivity.
Defined.
